(** * node-test-jest-compat: registry, retry controller, filtering and
    module mocking, embedded in Rocq.

    Sources: src/src/snapshot.ts (the registry part: mockRegistry,
    moduleRegistry, retryRegistry, filterRegistry), src/src/testFiltering.ts
    (testFiltering and testRetries), src/unnamed/part_001 (mockFunctions),
    src/unnamed/part_002 (moduleMocking), src/unnamed/part_000 (the test
    and describe facade that index.ts installs: createTestFunction,
    createDescribeFunction, handleRetries). *)

From Stdlib Require Import ZArith Lia.
From stdpp Require Import base list strings.

Set Warnings "-register-all".

(* ------------------------------------------------------------------ *)
(** ** JavaScript values *)

Module JS.

(** The values the shim reads: primitives, plain objects (identity plus
    own data properties) and Error objects created by the runtime or the
    host (kind such as "TypeError", message). *)
Inductive jsval : Type :=
| JUndefined
| JNull
| JBool (b : bool)
| JNum (z : Z)
| JNaN
| JStr (s : string)
| JObj (oid : nat) (props : list (string * jsval))
| JError (kind : string) (msg : string).

(** ECMAScript ToBoolean. *)
Definition truthy (v : jsval) : bool :=
  match v with
  | JUndefined | JNull | JNaN => false
  | JBool b => b
  | JNum z => negb (Z.eqb z 0)
  | JStr s => negb (String.eqb s "")
  | JObj _ _ | JError _ _ => true
  end.

Definition nullish (v : jsval) : bool :=
  match v with JUndefined | JNull => true | _ => false end.

Fixpoint own_prop (k : string) (ps : list (string * jsval)) : jsval :=
  match ps with
  | [] => JUndefined
  | (k', v) :: ps' => if String.eqb k k' then v else own_prop k ps'
  end.

(** Property read [v.k]: [None] when [v] is null or undefined (the runtime
    throws a TypeError); primitives have none of the properties the shim
    reads ("message", "_isMockFunction", "__esModule", "default"). *)
Definition get_prop (v : jsval) (k : string) : option jsval :=
  match v with
  | JUndefined | JNull => None
  | JObj _ ps => Some (own_prop k ps)
  | JError _ msg => if String.eqb k "message" then Some (JStr msg) else Some JUndefined
  | _ => Some JUndefined
  end.

(** The TypeError the runtime throws for a property read on a nullish value. *)
Definition read_error (v : jsval) (k : string) : jsval :=
  JError "TypeError" ("Cannot read properties of "
    ++ (match v with JNull => "null" | _ => "undefined" end) ++ " (reading '" ++ k ++ "')").

(** How a call completes. *)
Inductive completion : Type :=
| Normal
| Abrupt (e : jsval).

(** A call that returns a value or throws. *)
Inductive result (A : Type) : Type :=
| Ret (a : A)
| Throw (e : jsval).
Arguments Ret {A} a.
Arguments Throw {A} e.

(** The second positional argument of test/describe: a function (the body,
    shifted by [typeof options === 'function']), an options object, or
    absent (default [{}]). *)
Inductive arg2 (B : Type) : Type :=
| ArgFun (f : B)
| ArgOpts (o : list (string * jsval))
| ArgNone.
Arguments ArgFun {B} f.
Arguments ArgOpts {B} o.
Arguments ArgNone {B}.

(** [if (typeof options === 'function') { fn = options; options = {}; }] *)
Definition normalize {B} (a : arg2 B) (fn : option B) : list (string * jsval) * option B :=
  match a with
  | ArgFun f => ([], Some f)
  | ArgOpts o => (o, fn)
  | ArgNone => ([], fn)
  end.

End JS.
Import JS.

(* ------------------------------------------------------------------ *)
(** ** Retry registry (snapshot.ts, retryRegistry) *)

Module Retry.

Record block := { name : string; retryCount : Z }.

(** [currentRetryCount] and [describeStack]; the stack is a JS array whose
    top is its last element. *)
Record registry := { currentRetryCount : Z; describeStack : list block }.

Definition initial : registry := {| currentRetryCount := 0; describeStack := [] |}.

(** [currentRetryCount = count; if (describeStack.length > 0)
      describeStack[describeStack.length - 1].retryCount = count;] *)
Definition setGlobalRetryCount (count : Z) (r : registry) : registry :=
  let st := describeStack r in
  {| currentRetryCount := count;
     describeStack :=
       if decide (0 < length st)%nat then
         match st !! (length st - 1)%nat with
         | Some b => <[(length st - 1)%nat := {| name := name b; retryCount := count |}]> st
         | None => st
         end
       else st |}.

Definition getCurrentRetryCount (r : registry) : Z :=
  let st := describeStack r in
  if decide (0 < length st)%nat then
    match st !! (length st - 1)%nat with
    | Some b => retryCount b
    | None => currentRetryCount r
    end
  else currentRetryCount r.

(** [const inherited = getCurrentRetryCount(); describeStack.push({name, retryCount: inherited})] *)
Definition pushDescribeBlock (nm : string) (r : registry) : registry :=
  let inherited := getCurrentRetryCount r in
  {| currentRetryCount := currentRetryCount r;
     describeStack := describeStack r ++ [{| name := nm; retryCount := inherited |}] |}.

(** [describeStack.pop()]: no-op on an empty array. *)
Definition popDescribeBlock (r : registry) : registry :=
  {| currentRetryCount := currentRetryCount r;
     describeStack := removelast (describeStack r) |}.

Definition depth (r : registry) : nat := length (describeStack r).

End Retry.

(* ------------------------------------------------------------------ *)
(** ** Retry controller (testFiltering.ts, testRetries) *)

Module Retries.

(** A test body as the retry wrapper sees it: the completion of its
    invocation number [n] (counting from 0), whether it throws
    synchronously or its promise rejects ([await fn(t, ...args)]). *)
Definition test_body := nat -> completion.

(** What one run of the wrapped function does: how it completes, how many
    times it invoked the body, and the retry diagnostics it printed
    (test name, attempt number [attempt + 1], [error.message]). *)
Record run_result := {
  outcome : completion;
  calls : nat;
  logs : list (string * Z * jsval)
}.

(** The [while (attempt <= retryCount)] loop of [wrappedFn], with its
    [try]/[catch] and the final [if (lastError) throw lastError].  [fuel]
    bounds the iterations; it is started at [retryCount + 1], the number
    of iterations the loop condition allows from [attempt = 0]. *)
Fixpoint retry_loop (fuel : nat) (nm : string) (retryCount : Z) (fn : test_body)
    (attempt : Z) (ncalls : nat) (lastError : jsval)
    (lg : list (string * Z * jsval)) : run_result :=
  let finish :=
    {| outcome := if truthy lastError then Abrupt lastError else Normal;
       calls := ncalls; logs := lg |} in
  match fuel with
  | O => finish
  | S fuel' =>
      if Z.leb attempt retryCount then
        match fn ncalls with
        | Normal => {| outcome := Normal; calls := S ncalls; logs := lg |}
        | Abrupt error =>
            (* lastError = error; *)
            if Z.ltb attempt retryCount then
              (* console.log(`... (${error.message})`) *)
              match get_prop error "message" with
              | None =>
                  {| outcome := Abrupt (read_error error "message");
                     calls := S ncalls; logs := lg |}
              | Some m =>
                  retry_loop fuel' nm retryCount fn (attempt + 1)%Z (S ncalls) error
                    (lg ++ [(nm, (attempt + 1)%Z, m)])
              end
            else retry_loop fuel' nm retryCount fn (attempt + 1)%Z (S ncalls) error lg
        end
      else finish
  end.

(** [const wrappedFn = async (t, ...args) => { let lastError; let attempt = 0; ... }] *)
Definition wrappedFn (nm : string) (retryCount : Z) (fn : test_body) : run_result :=
  retry_loop (Z.to_nat (retryCount + 1)%Z) nm retryCount fn 0 0 JUndefined [].

(** The closure [wrappedFn] handed to the host: it captures [name],
    [retryCount] and [fn] of the [retryableTest] call that built it. *)
Inductive test_callback :=
| RetryWrapped (nm : string) (retryCount : Z) (fn : test_body).

(** A test registered with the host [test] function. *)
Record host_test := {
  t_name : string;
  t_options : list (string * jsval);
  t_fn : option test_callback
}.

(** [withRetries(testFn)] applied to [(name, options, fn)] while the retry
    registry is [r]. *)
Definition retryableTest (r : Retry.registry) (nm : string) (a : arg2 test_body)
    (fn : option test_body) : host_test :=
  let '(options, fn) := normalize a fn in
  let retryCount := Retry.getCurrentRetryCount r in
  match fn with
  | None => {| t_name := nm; t_options := options; t_fn := None |}
  | Some f => {| t_name := nm; t_options := options; t_fn := Some (RetryWrapped nm retryCount f) |}
  end.

(** The host later invokes the registered callback; the closure reads
    nothing from the registry. *)
Definition host_run (t : host_test) : run_result :=
  match t_fn t with
  | Some (RetryWrapped nm rc f) => wrappedFn nm rc f
  | None => {| outcome := Normal; calls := 0; logs := [] |}
  end.

(** A suite body during registration: it reads and writes the retry
    registry (nested describe, test, retryTimes calls) and completes
    normally or throws. *)
Definition suite_body := Retry.registry -> Retry.registry * completion.

(** The arrow function [enhanceDescribeFunction] passes to the host:
    [pushDescribeBlock(name); if (fn) fn(); popDescribeBlock();] *)
Definition describe_callback (nm : string) (fn : option suite_body)
    (r : Retry.registry) : Retry.registry * completion :=
  let r1 := Retry.pushDescribeBlock nm r in
  match fn with
  | None => (Retry.popDescribeBlock r1, Normal)
  | Some f =>
      match f r1 with
      | (r2, Normal) => (Retry.popDescribeBlock r2, Normal)
      | (r2, Abrupt e) => (r2, Abrupt e)
      end
  end.

(** A suite as the host records it. The host's [describe] runs the suite
    function synchronously and records what it throws as the suite's
    failure. *)
Record host_suite := {
  s_name : string;
  s_options : list (string * jsval);
  s_error : option jsval
}.

(** [enhancedDescribe(name, options, fn)] of [testRetries.enhanceDescribeFunction]. *)
Definition enhancedDescribe (r : Retry.registry) (nm : string) (a : arg2 suite_body)
    (fn : option suite_body) : Retry.registry * host_suite :=
  let '(options, fn) := normalize a fn in
  let '(r', c) := describe_callback nm fn r in
  (r', {| s_name := nm; s_options := options;
          s_error := match c with Normal => None | Abrupt e => Some e end |}).

(** A body that throws [errs i] on its first [K] invocations and then
    completes normally. *)
Definition fails_first (K : nat) (errs : nat -> jsval) : test_body :=
  fun i => if Nat.ltb i K then Abrupt (errs i) else Normal.

(** A suite body that throws at once: [() => { throw new Error(msg) }]. *)
Definition throwing_suite (e : jsval) : suite_body := fun r => (r, Abrupt e).

(** [test.retryTimes(count)] as a suite body statement. *)
Definition retryTimes (count : Z) : suite_body :=
  fun r => (Retry.setGlobalRetryCount count r, Normal).

End Retries.

(* ------------------------------------------------------------------ *)
(** ** JavaScript [Map] (and object-literal keys): insertion-ordered
    association lists with unique keys. *)

Module JSMap.
Section Ops.
Context {K V : Type} `{EqDecision K}.

Fixpoint get (k : K) (m : list (K * V)) : option V :=
  match m with
  | [] => None
  | (k', v) :: m' => if decide (k = k') then Some v else get k m'
  end.

Definition has (k : K) (m : list (K * V)) : bool :=
  match get k m with Some _ => true | None => false end.

(** [m.set(k, v)]: an existing key keeps its position. *)
Fixpoint set (k : K) (v : V) (m : list (K * V)) : list (K * V) :=
  match m with
  | [] => [(k, v)]
  | (k', v') :: m' => if decide (k = k') then (k, v) :: m' else (k', v') :: set k v m'
  end.

Fixpoint delete (k : K) (m : list (K * V)) : list (K * V) :=
  match m with
  | [] => []
  | (k', v') :: m' => if decide (k = k') then m' else (k', v') :: delete k m'
  end.

End Ops.
End JSMap.

(* ------------------------------------------------------------------ *)
(** ** Module mocking (moduleMocking.ts over moduleRegistry) *)

Module ModuleMocking.

(** The handle the host's [test.mock.module] returns. *)
Record mock_context := { ctx_id : nat; ctx_module : string }.

Inductive event :=
| FactoryCalled (m : string)
| HostMockModule (m : string) (defaultExport : jsval) (namedExports : jsval)
| HostRestore (c : nat)
| ConsoleError (m : string) (e : jsval).

(** [mockedModules] (a [Map<string, any>]) and the host's side: the
    modules it currently substitutes and the next handle it hands out. *)
Record state := {
  mockedModules : list (string * mock_context);
  hostMocked : list string;
  nextCtx : nat;
  events : list event
}.

Definition with_events (s : state) (ev : list event) : state :=
  {| mockedModules := mockedModules s; hostMocked := hostMocked s;
     nextCtx := nextCtx s; events := ev |}.

Definition with_modules (s : state) (mm : list (string * mock_context)) : state :=
  {| mockedModules := mm; hostMocked := hostMocked s;
     nextCtx := nextCtx s; events := events s |}.

(** The errors node's [test.mock.module] throws.  [validateObject] on
    [options.namedExports] throws ERR_INVALID_ARG_TYPE, a TypeError whose
    message ends with a description of the value received; node appends
    the inspected value in parentheses after the type, which is left out
    here.  A module it already substitutes gives ERR_INVALID_STATE. *)
Definition dq : string := String (Ascii.ascii_of_nat 34) EmptyString.

Definition received_type (v : jsval) : string :=
  match v with
  | JNull => "null"
  | JUndefined => "undefined"
  | JBool _ => "type boolean"
  | JNum _ | JNaN => "type number"
  | JStr _ => "type string"
  | JObj _ _ | JError _ _ => "an instance of Object"
  end.

Definition invalid_named_exports (v : jsval) : jsval :=
  JError "TypeError" ("The " ++ dq ++ "options.namedExports" ++ dq
                      ++ " property must be of type object. Received " ++ received_type v).

Definition already_mocked (m : string) : jsval :=
  JError "Error" ("Invalid state: Cannot mock '" ++ m ++ "'. The module is already mocked.").

(** Host [test.mock.module(name, {defaultExport, namedExports})]: it
    validates [namedExports] (an object), then refuses a module it already
    substitutes.  Specifier resolution is not modelled: specifiers are
    taken to resolve (node throws ERR_MODULE_NOT_FOUND for one that does
    not, before the already-mocked check). *)
Definition host_mock_module (s : state) (m : string) (de ne : jsval)
    : result mock_context * state :=
  match ne with
  | JObj _ _ | JError _ _ =>
      if decide (m ∈ hostMocked s) then (Throw (already_mocked m), s)
      else
        let c := {| ctx_id := nextCtx s; ctx_module := m |} in
        (Ret c, {| mockedModules := mockedModules s; hostMocked := m :: hostMocked s;
                   nextCtx := S (nextCtx s); events := events s ++ [HostMockModule m de ne] |})
  | _ => (Throw (invalid_named_exports ne), s)
  end.

(** Host [mockContext.restore()]. *)
Definition host_restore (s : state) (c : mock_context) : state :=
  {| mockedModules := mockedModules s;
     hostMocked := filter (fun m => m <> ctx_module c) (hostMocked s);
     nextCtx := nextCtx s;
     events := events s ++ [HostRestore (ctx_id c)] |}.

(** moduleRegistry *)
Definition hasMockedModule (s : state) (nm : string) : bool := JSMap.has nm (mockedModules s).
Definition registerMockedModule (s : state) (nm : string) (c : mock_context) : state :=
  with_modules s (JSMap.set nm c (mockedModules s)).

(** [moduleRegistry.unmockModule]: [const mockContext = mockedModules.get(name);
    if (mockContext) { mockContext.restore(); mockedModules.delete(name); }] *)
Definition unmockModule (s : state) (nm : string) : state :=
  match JSMap.get nm (mockedModules s) with
  | Some c =>
      let s1 := host_restore s c in
      with_modules s1 (JSMap.delete nm (mockedModules s1))
  | None => s
  end.

(** [mockModule(moduleName, factory?)].  [factory] is what calling the
    factory yields; [None] when no factory is given ([moduleExports = {}],
    a fresh object). The result is [undefined] ([Ret None]) on the early
    return, the mock context, or a throw. *)
Definition mockModule (s : state) (nm : string) (factory : option (result jsval))
    : state * result (option mock_context) :=
  if hasMockedModule s nm then (s, Ret None)
  else
    let '(s1, exportsR) :=
      match factory with
      | Some fr => (with_events s (events s ++ [FactoryCalled nm]), fr)
      | None => (s, Ret (JObj 0 []))
      end in
    match exportsR with
    | Throw e => (s1, Throw e)
    | Ret moduleExports =>
        (* try { const mockContext = test.mock.module(...); ... } *)
        let attempt :=
          match get_prop moduleExports "__esModule" with
          | None => (Throw (read_error moduleExports "__esModule"), s1)
          | Some esm =>
              let de := if truthy esm
                        then match get_prop moduleExports "default" with
                             | Some d => d | None => JUndefined end
                        else moduleExports in
              host_mock_module s1 nm de moduleExports
          end in
        match attempt with
        | (Ret c, s2) => (registerMockedModule s2 nm c, Ret (Some c))
        | (Throw e, s2) =>
            (* catch (error) { console.error(...); throw error; } *)
            (with_events s2 (events s2 ++ [ConsoleError nm e]), Throw e)
        end
    end.

End ModuleMocking.

(* ------------------------------------------------------------------ *)
(** ** Mock and spy registry (mockRegistry) *)

Module Mocks.

(** A mock or spy function, by object identity. *)
Definition mock := nat.

Record spy_info := {
  object : jsval;
  methodName : string;
  original : jsval;
  accessType : option string
}.

Inductive mevent :=
| MockClear (m : mock)
| MockReset (m : mock)
| MockRestore (m : mock).

(** [createdMocks] (a [Set]) and [spiedFunctions] (a [Map]). *)
Record state := {
  createdMocks : list mock;
  spiedFunctions : list (mock * spy_info);
  mevents : list mevent
}.

Definition set_add (m : mock) (l : list mock) : list mock :=
  if decide (m ∈ l) then l else l ++ [m].

Section Capabilities.
(** [typeof spy.mockRestore === 'function'], per mock. The mock library's
    [mockRestore] is taken not to throw. *)
Variable has_mockRestore : mock -> bool.

Definition registerMock (s : state) (m : mock) : state :=
  {| createdMocks := set_add m (createdMocks s); spiedFunctions := spiedFunctions s;
     mevents := mevents s |}.

Definition registerSpy (s : state) (spy : mock) (info : spy_info) : state :=
  {| createdMocks := set_add spy (createdMocks s);
     spiedFunctions := JSMap.set spy info (spiedFunctions s);
     mevents := mevents s |}.

(** [spiedFunctions.forEach((info, spy) => { if (...) spy.mockRestore(); });
    spiedFunctions.clear();] *)
Definition restoreAllMocks (s : state) : state :=
  let ev := fold_left
              (fun ev (p : mock * spy_info) =>
                 if has_mockRestore p.1 then ev ++ [MockRestore p.1] else ev)
              (spiedFunctions s) (mevents s) in
  {| createdMocks := createdMocks s; spiedFunctions := []; mevents := ev |}.

End Capabilities.

(** [isMockFunction: (fn) => fn && !!fn._isMockFunction] *)
Definition isMockFunction (fn : jsval) : result jsval :=
  if truthy fn then
    match get_prop fn "_isMockFunction" with
    | Some p => Ret (JBool (truthy p))
    | None => Throw (read_error fn "_isMockFunction")
    end
  else Ret fn.

End Mocks.

(* ------------------------------------------------------------------ *)
(** ** Filtering layer (testFiltering.ts, testFiltering; filterRegistry) *)

Module Filtering.

(** Bodies are passed through untouched; they are named by identity. *)
Definition body := nat.

(** A call of the underlying test or describe function. *)
Record host_reg := {
  r_kind : string;
  r_name : string;
  r_options : list (string * jsval);
  r_fn : option body
}.

(** [onlyMode] of the registry and the calls reaching the host. *)
Record state := { onlyMode : bool; registered : list host_reg }.

Definition initial : state := {| onlyMode := false; registered := [] |}.

Definition setOnlyMode (enabled : bool) (s : state) : state :=
  {| onlyMode := enabled; registered := registered s |}.


Definition host_call (kind : string) (nm : string) (o : list (string * jsval))
    (fn : option body) (s : state) : state :=
  {| onlyMode := onlyMode s;
     registered := registered s ++ [{| r_kind := kind; r_name := nm; r_options := o; r_fn := fn |}] |}.

(** The entry points [enhanceTestFunction] and [enhanceDescribeFunction] add. *)
Inductive call :=
| TestOnly (nm : string) (a : arg2 body) (fn : option body)
| TestSkip (nm : string) (a : arg2 body) (fn : option body)
| TestTodo (nm : string) (a : arg2 body) (fn : option body)
| Describe (nm : string) (a : arg2 body) (fn : option body)
| DescribeOnly (nm : string) (fn : option body)
| DescribeSkip (nm : string) (fn : option body)
| DescribeTodo (nm : string) (fn : option body).

(** [testFn.only = (name, options = {}, fn) => { ...; options = { ...options, only: true };
    return testFn(name, options, fn); }] and its siblings;
    [enhancedDescribe.only = (name, fn) => describeFn(name, { only: true }, fn)]. *)
Definition step (s : state) (c : call) : state :=
  match c with
  | TestOnly nm a fn =>
      let '(o, fn) := normalize a fn in host_call "test" nm (JSMap.set "only" (JBool true) o) fn s
  | TestSkip nm a fn =>
      let '(o, fn) := normalize a fn in host_call "test" nm (JSMap.set "skip" (JBool true) o) fn s
  | TestTodo nm a fn =>
      let '(o, fn) := normalize a fn in host_call "test" nm (JSMap.set "todo" (JBool true) o) fn s
  | Describe nm a fn =>
      let '(o, fn) := normalize a fn in host_call "describe" nm o fn s
  | DescribeOnly nm fn => host_call "describe" nm [("only", JBool true)] fn s
  | DescribeSkip nm fn => host_call "describe" nm [("skip", JBool true)] fn s
  | DescribeTodo nm fn => host_call "describe" nm [("todo", JBool true)] fn s
  end.

Definition run (s : state) (cs : list call) : state := fold_left step cs s.

End Filtering.

(* ------------------------------------------------------------------ *)
(** ** Module registry with its module cache (moduleRegistry.resetAllModules,
    cacheModule, getCachedModule; mockFunctions' requireActual, requireMock) *)

Module ModuleRegistry.
Import ModuleMocking.

(** The module-mock state, [moduleCache] (a [Map<string, any>]) and the
    CommonJS [require.cache] keys: [None] under ESM, where [typeof require]
    is ['undefined']. *)
Record modreg := {
  mstate : state;
  moduleCache : list (string * jsval);
  requireCache : option (list string)
}.

Definition cacheModule (g : modreg) (nm : string) (m : jsval) : modreg :=
  {| mstate := mstate g; moduleCache := JSMap.set nm m (moduleCache g);
     requireCache := requireCache g |}.

(** [moduleCache.get(name)]: [undefined] for a missing key. *)
Definition getCachedModule (g : modreg) (nm : string) : jsval :=
  match JSMap.get nm (moduleCache g) with Some v => v | None => JUndefined end.

(** [for (const [name, ctx] of mockedModules.entries()) ctx.restore();
     mockedModules.clear(); moduleCache.clear();] then, under CommonJS,
    every key of [require.cache] deleted. *)
Definition resetAllModules (g : modreg) : modreg :=
  let s := mstate g in
  let s1 := fold_left (fun s' (p : string * mock_context) => host_restore s' p.2)
              (mockedModules s) s in
  {| mstate := with_modules s1 [];
     moduleCache := [];
     requireCache := match requireCache g with Some _ => Some [] | None => None end |}.

(** What [requireActual] hands back: the module [require] loaded, or the
    promise of [import(name)] when [require] throws (ESM). *)
Inductive loaded :=
| Loaded (v : jsval)
| ImportPromise (nm : string).

Definition requireActual (host_require : string -> result jsval) (nm : string) : loaded :=
  match host_require nm with
  | Ret v => Loaded v
  | Throw _ => ImportPromise nm
  end.

(** [const cached = getCachedModule(name); if (cached) return cached;
     return requireActual(name);] *)
Definition requireMock (host_require : string -> result jsval) (g : modreg) (nm : string) : loaded :=
  let cached := getCachedModule g nm in
  if truthy cached then Loaded cached else requireActual host_require nm.

(** Operations of [moduleMocking] and the module registry. *)
Inductive op :=
| OpMock (nm : string) (factory : option (result jsval))
| OpUnmock (nm : string)
| OpReset
| OpCache (nm : string) (m : jsval).

Definition step (g : modreg) (o : op) : modreg :=
  match o with
  | OpMock nm f =>
      {| mstate := (mockModule (mstate g) nm f).1; moduleCache := moduleCache g;
         requireCache := requireCache g |}
  | OpUnmock nm =>
      {| mstate := unmockModule (mstate g) nm; moduleCache := moduleCache g;
         requireCache := requireCache g |}
  | OpReset => resetAllModules g
  | OpCache nm m => cacheModule g nm m
  end.

Definition run (g : modreg) (os : list op) : modreg := fold_left step os g.

Definition empty (rc : option (list string)) : modreg :=
  {| mstate := {| mockedModules := []; hostMocked := []; nextCtx := 0; events := [] |};
     moduleCache := []; requireCache := rc |}.

End ModuleRegistry.

(* ------------------------------------------------------------------ *)
(** ** Bulk mock operations (mockRegistry.clearAllMocks, resetAllMocks) *)

Module MockOps.
Import Mocks.

Section Capabilities.
(** [typeof mock.mockClear === 'function'], [typeof mock.mockReset === 'function']. *)
Variable has_mockClear : mock -> bool.
Variable has_mockReset : mock -> bool.
Variable has_mockRestore : mock -> bool.

(** [createdMocks.forEach(mock => { if (...) mock.mockClear(); })] *)
Definition clearAllMocks (s : state) : state :=
  {| createdMocks := createdMocks s; spiedFunctions := spiedFunctions s;
     mevents := fold_left (fun ev m => if has_mockClear m then ev ++ [MockClear m] else ev)
                  (createdMocks s) (mevents s) |}.

Definition resetAllMocks (s : state) : state :=
  {| createdMocks := createdMocks s; spiedFunctions := spiedFunctions s;
     mevents := fold_left (fun ev m => if has_mockReset m then ev ++ [MockReset m] else ev)
                  (createdMocks s) (mevents s) |}.

Inductive op :=
| OpRegisterMock (m : mock)
| OpRegisterSpy (spy : mock) (info : spy_info)
| OpClear
| OpReset
| OpRestore.

Definition step (s : state) (o : op) : state :=
  match o with
  | OpRegisterMock m => registerMock s m
  | OpRegisterSpy spy info => registerSpy s spy info
  | OpClear => clearAllMocks s
  | OpReset => resetAllMocks s
  | OpRestore => restoreAllMocks has_mockRestore s
  end.

Definition run (s : state) (os : list op) : state := fold_left step os s.

End Capabilities.

Definition empty : state := {| createdMocks := []; spiedFunctions := []; mevents := [] |}.

End MockOps.

(* ------------------------------------------------------------------ *)
(** ** Snapshot set-up and the toMatchSnapshot matcher (snapshot.ts) *)

Module Snapshot.

Inductive sevent :=
| SetResolveSnapshotPath
| SetDefaultSnapshotSerializers
| ExpectExtend
| WarnNoExtend.

(** [resolverSet] and the calls made on the host. *)
Record sstate := { resolverSet : bool; sevents : list sevent }.

Definition initial : sstate := {| resolverSet := false; sevents := [] |}.

(** [if (resolverSet) return; test.snapshot.setResolveSnapshotPath(...);
     test.snapshot.setDefaultSnapshotSerializers([...]); resolverSet = true;] *)
Definition setupSnapshotPathResolver (s : sstate) : sstate :=
  if resolverSet s then s
  else {| resolverSet := true;
          sevents := sevents s ++ [SetResolveSnapshotPath; SetDefaultSnapshotSerializers] |}.

(** [if (!expectLib.extend) { console.warn(...); return; } expectLib.extend({...})];
    [has_extend] is the truthiness of [expectLib.extend]. *)
Definition extendExpect (has_extend : bool) (s : sstate) : sstate :=
  {| resolverSet := resolverSet s;
     sevents := sevents s ++ [if has_extend then ExpectExtend else WarnNoExtend] |}.

Definition initializeSnapshot (has_extend : bool) (s : sstate) : sstate :=
  extendExpect has_extend (setupSnapshotPathResolver s).

Fixpoint initialize_times (n : nat) (has_extend : bool) (s : sstate) : sstate :=
  match n with
  | O => s
  | S n' => initialize_times n' has_extend (initializeSnapshot has_extend s)
  end.

(** What the matcher returns: [pass] and the value [message()] yields
    (the message function is only evaluated when the caller asks). *)
Record matcher_result := { pass : bool; message : result jsval }.

Definition no_context_error : jsval :=
  JError "Error" "Snapshot testing requires a test context with assert property".

(** [toMatchSnapshot(received)] with [context] the current test context;
    [snapshot] is what calling [context.assert.snapshot(received)] does. *)
Definition toMatchSnapshot (context : jsval) (snapshot : jsval -> completion)
    (received : jsval) : result matcher_result :=
  if negb (truthy context) then Throw no_context_error
  else
    match get_prop context "assert" with
    | None => Throw (read_error context "assert")
    | Some a =>
        if negb (truthy a) then Throw no_context_error
        else
          match snapshot received with
          | Normal => Ret {| pass := true; message := Ret (JStr "Snapshot matches") |}
          | Abrupt error =>
              Ret {| pass := false;
                     message :=
                       match get_prop error "message" with
                       | None => Throw (read_error error "message")
                       | Some m => Ret (if truthy m then m else JStr "Snapshot does not match")
                       end |}
          end
    end.

End Snapshot.

(* ------------------------------------------------------------------ *)
(** ** The installed test and describe façade (src/unnamed/part_000:
    createTestFunction, createDescribeFunction, handleRetries), the one
    index.ts puts in place as [test], [it], [describe] and
    [jest.retryTimes]. *)

Module Facade.
Import Retries.

(** A second or third positional argument, classified by the [typeof]
    tests the façade makes: a function, a non-null object, a number, or
    anything else (undefined, null, a string, a boolean). *)
Inductive targ :=
| VFun (f : test_body)
| VObj (o : list (string * jsval))
| VNum (z : Z)
| VOther.

(** The host body a test is registered with: [wrappedFn] closes over the
    test's name and body only; the retry count is read when it runs. *)
Inductive wrapper := Wrapped (nm : string) (fn : test_body).

Record ftest := { ft_name : string; ft_options : list (string * jsval); ft_fn : option wrapper }.

Record fsuite := { fs_name : string; fs_options : list (string * jsval); fs_error : option jsval }.

(** The retry registry, [onlyMode] of filterRegistry, and what the host
    [test] and [describe] functions were called with. *)
Record fstate := {
  freg : Retry.registry;
  fonly : bool;
  ftests : list ftest;
  fsuites : list fsuite
}.

Definition initial : fstate :=
  {| freg := Retry.initial; fonly := false; ftests := []; fsuites := [] |}.

Definition with_reg (s : fstate) (r : Retry.registry) : fstate :=
  {| freg := r; fonly := fonly s; ftests := ftests s; fsuites := fsuites s |}.

Definition set_only (s : fstate) : fstate :=
  {| freg := freg s; fonly := true; ftests := ftests s; fsuites := fsuites s |}.

Definition add_test (s : fstate) (t : ftest) : fstate :=
  {| freg := freg s; fonly := fonly s; ftests := ftests s ++ [t]; fsuites := fsuites s |}.

Definition add_suite (s : fstate) (su : fsuite) : fstate :=
  {| freg := freg s; fonly := fonly s; ftests := ftests s; fsuites := fsuites s ++ [su] |}.

(** [handleRetries(t, fn, retryCount, testName)]: its loop is the one of
    withRetries' [wrappedFn], statement for statement. *)
Definition handleRetries (fn : test_body) (retryCount : Z) (testName : string) : run_result :=
  wrappedFn testName retryCount fn.

(** The host running a registered [wrappedFn] while the registry is [r]:
    [const retryCount = retryRegistry.getCurrentRetryCount();
     if (retryCount > 0) return handleRetries(...); return fn!(t, ...args);] *)
Definition run_wrapper (w : wrapper) (r : Retry.registry) : run_result :=
  let '(Wrapped nm fn) := w in
  let retryCount := Retry.getCurrentRetryCount r in
  if Z.ltb 0 retryCount then handleRetries fn retryCount nm
  else {| outcome := fn 0%nat; calls := 1; logs := [] |}.

(** [testFunction(name, fnOrOptions?, maybeTimeout?)]: options and body
    after the Jest/Node argument shapes. *)
Definition test_args (a2 a3 : targ) : list (string * jsval) * option test_body :=
  match a2 with
  | VFun f => (match a3 with VNum z => [("timeout", JNum z)] | _ => [] end, Some f)
  | VObj o => (o, match a3 with VFun g => Some g | _ => None end)
  | _ => ([], None)
  end.

Definition testFunction (s : fstate) (nm : string) (a2 a3 : targ) : fstate :=
  let '(options, fn) := test_args a2 a3 in
  add_test s {| ft_name := nm; ft_options := options;
                ft_fn := match fn with Some f => Some (Wrapped nm f) | None => None end |}.

(** What a suite body, or a test file, does with the façade. *)
Inductive op :=
| Test (nm : string) (a2 a3 : targ)
| TestOnly (nm : string) (fn timeout : targ)
| TestSkip (nm : string) (fn : targ)
| TestTodo (nm : string)
| RetryTimes (count : Z)
| Describe (nm : string) (a2 : darg) (fn : option prog)
| DescribeOnly (nm : string) (fn : option prog)
| DescribeSkip (nm : string) (fn : option prog)
| DescribeTodo (nm : string) (fn : option prog)
| ThrowOp (e : jsval)
with prog :=
| Done
| Seq (o : op) (p : prog)
(** [fnOrOptions] of [describeFunction]: a function, a non-null object, or
    anything else. *)
with darg :=
| DFun (p : prog)
| DObj (o : list (string * jsval))
| DOther.

(** [nodeDescribe(name, options, wrappedFn)]: the host runs the suite
    callback at once and records what it throws;
    [wrappedFn = () => { pushDescribeBlock(name); fn!(); popDescribeBlock(); }]. *)
Definition describe_with (s : fstate) (nm : string) (options : list (string * jsval))
    (body : option (fstate -> fstate * completion)) : fstate * completion :=
  match body with
  | None => (add_suite s {| fs_name := nm; fs_options := options; fs_error := None |}, Normal)
  | Some f =>
      let s1 := with_reg s (Retry.pushDescribeBlock nm (freg s)) in
      match f s1 with
      | (s2, Normal) =>
          (add_suite (with_reg s2 (Retry.popDescribeBlock (freg s2)))
             {| fs_name := nm; fs_options := options; fs_error := None |}, Normal)
      | (s2, Abrupt e) =>
          (add_suite s2 {| fs_name := nm; fs_options := options; fs_error := Some e |}, Normal)
      end
  end.

Fixpoint exec_op (s : fstate) (o : op) : fstate * completion :=
  match o with
  | Test nm a2 a3 => (testFunction s nm a2 a3, Normal)
  | TestOnly nm fn timeout =>
      (* [options = { only: true }; options.timeout = timeout] if a number;
         [filterRegistry.setOnlyMode(true)]; [testFunction(name, options, fn)] *)
      let options := ("only", JBool true)
                     :: match timeout with VNum z => [("timeout", JNum z)] | _ => [] end in
      (testFunction (set_only s) nm (VObj options) fn, Normal)
  | TestSkip nm fn => (testFunction s nm (VObj [("skip", JBool true)]) fn, Normal)
  | TestTodo nm => (testFunction s nm (VObj [("todo", JBool true)]) VOther, Normal)
  | RetryTimes count => (with_reg s (Retry.setGlobalRetryCount count (freg s)), Normal)
  | Describe nm a2 fn =>
      match a2 with
      | DFun p => describe_with s nm [] (Some (fun s' => exec_prog s' p))
      | DObj o =>
          describe_with s nm o (match fn with Some p => Some (fun s' => exec_prog s' p) | None => None end)
      | DOther =>
          describe_with s nm [] (match fn with Some p => Some (fun s' => exec_prog s' p) | None => None end)
      end
  | DescribeOnly nm fn =>
      describe_with (set_only s) nm [("only", JBool true)]
        (match fn with Some p => Some (fun s' => exec_prog s' p) | None => None end)
  | DescribeSkip nm fn =>
      describe_with s nm [("skip", JBool true)]
        (match fn with Some p => Some (fun s' => exec_prog s' p) | None => None end)
  | DescribeTodo nm fn =>
      describe_with s nm [("todo", JBool true)]
        (match fn with Some p => Some (fun s' => exec_prog s' p) | None => None end)
  | ThrowOp e => (s, Abrupt e)
  end
with exec_prog (s : fstate) (p : prog) : fstate * completion :=
  match p with
  | Done => (s, Normal)
  | Seq o p' =>
      match exec_op s o with
      | (s1, Normal) => exec_prog s1 p'
      | (s1, Abrupt e) => (s1, Abrupt e)
      end
  end.

End Facade.

(* ------------------------------------------------------------------ *)
(** ** The retry diagnostics a run is expected to print *)

Module RetryLogs.

(** One line per failed attempt [i] (0-based) below [j]:
    test name, attempt number [i + 1], [errs i].message. *)
Definition log_lines (nm : string) (errs : nat -> jsval) (j : nat) : list (string * Z * jsval) :=
  map (fun i => (nm, Z.of_nat (S i),
                 match get_prop (errs i) "message" with Some m => m | None => JUndefined end))
      (seq 0 j).

End RetryLogs.

(* ================================================================== *)
(** * Properties *)

(** ** JavaScript values *)

Lemma truthy_not_nullish v : truthy v = true -> nullish v = false.
Proof. destruct v; simpl; congruence. Qed.

Lemma get_prop_not_nullish v k : nullish v = false -> exists p, get_prop v k = Some p.
Proof.
  destruct v; simpl; try discriminate; intros _; eauto.
  destruct (String.eqb k "message"); eauto.
Qed.

(** ** Retry registry *)

Section RegistryFacts.
Import Retry.

Lemma stack_cases (l : list block) : l = [] \/ exists pre b, l = pre ++ [b].
Proof. destruct l as [|x l'] using rev_ind; [by left | right; eauto]. Qed.

Lemma stack_top (pre : list block) b :
  (pre ++ [b]) !! (length (pre ++ [b]) - 1)%nat = Some b.
Proof.
  rewrite length_app; simpl.
  apply list_lookup_middle. lia.
Qed.

Lemma getCurrentRetryCount_snoc r pre b :
  describeStack r = pre ++ [b] -> getCurrentRetryCount r = retryCount b.
Proof.
  intros H. unfold getCurrentRetryCount. rewrite H, stack_top.
  rewrite decide_True; [done |]. rewrite length_app; simpl; lia.
Qed.

Lemma getCurrentRetryCount_nil r :
  describeStack r = [] -> getCurrentRetryCount r = currentRetryCount r.
Proof. intros H. unfold getCurrentRetryCount. rewrite H. done. Qed.

Lemma setGlobalRetryCount_snoc n r pre b :
  describeStack r = pre ++ [b] ->
  describeStack (setGlobalRetryCount n r) = pre ++ [{| name := name b; retryCount := n |}].
Proof.
  intros H. unfold setGlobalRetryCount; simpl. rewrite H, stack_top.
  rewrite decide_True by (rewrite length_app; simpl; lia).
  rewrite length_app; simpl.
  replace (length pre + 1 - 1)%nat with (length pre + 0)%nat by lia.
  rewrite insert_app_r. done.
Qed.

Lemma setGlobalRetryCount_nil n r :
  describeStack r = [] -> describeStack (setGlobalRetryCount n r) = [].
Proof. intros H. unfold setGlobalRetryCount; simpl. rewrite H. done. Qed.

Lemma pop_push nm r : popDescribeBlock (pushDescribeBlock nm r) = r.
Proof.
  destruct r as [c st]. unfold popDescribeBlock, pushDescribeBlock; simpl.
  rewrite removelast_last. done.
Qed.

Lemma depth_push nm r : depth (pushDescribeBlock nm r) = S (depth r).
Proof. unfold depth, pushDescribeBlock; simpl. rewrite length_app; simpl; lia. Qed.

Lemma depth_pop_push nm r : depth (popDescribeBlock (pushDescribeBlock nm r)) = depth r.
Proof. by rewrite pop_push. Qed.

Lemma depth_pop r : depth (popDescribeBlock r) = pred (depth r).
Proof.
  unfold depth, popDescribeBlock; simpl.
  destruct (stack_cases (describeStack r)) as [-> | (pre & b & ->)]; [done |].
  rewrite removelast_last, length_app; simpl; lia.
Qed.

End RegistryFacts.

(** C4: [pushDescribeBlock] reads the inherited count (top of stack, else
    the global default) before pushing, so a suite pushed after a count is
    set inherits exactly that count; [setGlobalRetryCount n] sets the
    global default and, when the stack is non-empty, overwrites the top
    entry's count (and nothing else), so the current block's later
    registrations read [n]; a nested push/pop leaves the registry as it was. *)
Theorem retry_registry_inheritance (r : Retry.registry) (n : Z) (nm : string) :
  Retry.currentRetryCount (Retry.setGlobalRetryCount n r) = n
  /\ Retry.getCurrentRetryCount (Retry.setGlobalRetryCount n r) = n
  /\ (Retry.describeStack r = [] -> Retry.describeStack (Retry.setGlobalRetryCount n r) = [])
  /\ (forall pre b, Retry.describeStack r = pre ++ [b] ->
        Retry.describeStack (Retry.setGlobalRetryCount n r)
        = pre ++ [{| Retry.name := Retry.name b; Retry.retryCount := n |}])
  /\ Retry.describeStack (Retry.pushDescribeBlock nm r)
     = Retry.describeStack r ++ [{| Retry.name := nm; Retry.retryCount := Retry.getCurrentRetryCount r |}]
  /\ Retry.describeStack (Retry.pushDescribeBlock nm (Retry.setGlobalRetryCount n r))
     = Retry.describeStack (Retry.setGlobalRetryCount n r) ++ [{| Retry.name := nm; Retry.retryCount := n |}]
  /\ Retry.getCurrentRetryCount (Retry.pushDescribeBlock nm (Retry.setGlobalRetryCount n r)) = n
  /\ Retry.popDescribeBlock (Retry.pushDescribeBlock nm r) = r.
Proof.
  assert (Hcur : Retry.getCurrentRetryCount (Retry.setGlobalRetryCount n r) = n).
  { destruct (stack_cases (Retry.describeStack r)) as [H | (pre & b & H)].
    - rewrite getCurrentRetryCount_nil; [done |]. by apply setGlobalRetryCount_nil.
    - rewrite (getCurrentRetryCount_snoc _ pre {| Retry.name := Retry.name b; Retry.retryCount := n |});
        [done | by apply setGlobalRetryCount_snoc]. }
  assert (Hpush : forall r0, Retry.describeStack (Retry.pushDescribeBlock nm r0)
            = Retry.describeStack r0 ++ [{| Retry.name := nm; Retry.retryCount := Retry.getCurrentRetryCount r0 |}]).
  { intros r0. done. }
  split; [done |]. split; [done |].
  split; [apply setGlobalRetryCount_nil |].
  split; [intros pre b; apply setGlobalRetryCount_snoc |].
  split; [apply Hpush |].
  split; [rewrite Hpush, Hcur; done |].
  split; [| apply pop_push].
  rewrite (getCurrentRetryCount_snoc _ (Retry.describeStack (Retry.setGlobalRetryCount n r))
             {| Retry.name := nm; Retry.retryCount := n |}); [done |].
  rewrite Hpush, Hcur. done.
Qed.

(** ** Retry controller *)

Section RetryLoop.
Import Retries.

Example wrappedFn_retry_then_pass :
  wrappedFn "t" 2 (fails_first 1 (fun _ => JError "Error" "expected 2 > 1"))
  = {| outcome := Normal; calls := 2;
       logs := [("t", 1%Z, JStr "expected 2 > 1")] |}.
Proof. reflexivity. Qed.

Example wrappedFn_exhausted :
  wrappedFn "t" 1 (fails_first 5 (fun i => JObj i []))
  = {| outcome := Abrupt (JObj 1 []); calls := 2; logs := [("t", 1%Z, JUndefined)] |}.
Proof. reflexivity. Qed.

Lemma retry_loop_calls_bound fuel nm N fn a ncalls last lg :
  (calls (retry_loop fuel nm N fn a ncalls last lg) <= ncalls + fuel)%nat.
Proof.
  revert a ncalls last lg.
  induction fuel as [|fuel IH]; intros a ncalls last lg; simpl; [lia |].
  destruct (Z.leb a N); simpl; [| lia].
  destruct (fn ncalls) as [|e]; simpl; [lia |].
  destruct (Z.ltb a N).
  - destruct (get_prop e "message"); simpl; [| lia].
    specialize (IH (a + 1)%Z (S ncalls) e (lg ++ [(nm, (a + 1)%Z, j)])). lia.
  - specialize (IH (a + 1)%Z (S ncalls) e lg). lia.
Qed.

Lemma wrappedFn_calls_bound nm N fn :
  (calls (wrappedFn nm N fn) <= Z.to_nat (N + 1))%nat.
Proof. unfold wrappedFn. pose proof (retry_loop_calls_bound (Z.to_nat (N + 1)) nm N fn 0 0 JUndefined []). lia. Qed.

(** The loop when every failure is truthy: attempt [a] is reached after [a]
    failing invocations. *)
Lemma retry_loop_truthy N K errs nm :
  (0 <= N)%Z -> (forall i, truthy (errs i) = true) ->
  forall fuel a last lg,
  (a <= K)%nat -> (Z.of_nat a + Z.of_nat fuel = N + 1)%Z ->
  (a = 0%nat /\ last = JUndefined \/ exists a', a = S a' /\ last = errs a') ->
  outcome (retry_loop fuel nm N (fails_first K errs) (Z.of_nat a) a last lg)
    = (if Nat.leb K (Z.to_nat N) then Normal else Abrupt (errs (Z.to_nat N)))
  /\ calls (retry_loop fuel nm N (fails_first K errs) (Z.of_nat a) a last lg)
    = (if Nat.leb K (Z.to_nat N) then S K else S (Z.to_nat N)).
Proof.
  intros HN Herr fuel.
  induction fuel as [|fuel IH]; intros a last lg HaK Hfuel Hlast; simpl.
  - assert (Ha : a = S (Z.to_nat N)) by lia.
    destruct Hlast as [[-> _] | (a' & -> & ->)]; [lia |].
    assert (a' = Z.to_nat N) as -> by lia.
    rewrite Herr. replace (Nat.leb K (Z.to_nat N)) with false by (symmetry; apply Nat.leb_gt; lia).
    done.
  - rewrite (proj2 (Z.leb_le _ _)) by lia.
    destruct (Nat.ltb a K) eqn:HaK'.
    + assert (Hf : fails_first K errs a = Abrupt (errs a))
        by (unfold fails_first; rewrite HaK'; done).
      rewrite Hf. apply Nat.ltb_lt in HaK'.
      assert (Hs : (Z.of_nat a + 1)%Z = Z.of_nat (S a)) by lia.
      destruct (Z.ltb (Z.of_nat a) N).
      * destruct (get_prop_not_nullish (errs a) "message") as [m Hm];
          [apply truthy_not_nullish, Herr |].
        rewrite Hm, Hs. apply IH; [lia | lia | right; eauto].
      * rewrite Hs. apply IH; [lia | lia | right; eauto].
    + assert (Hf : fails_first K errs a = Normal)
        by (unfold fails_first; rewrite HaK'; done).
      rewrite Hf. apply Nat.ltb_ge in HaK'. assert (a = K) as -> by lia.
      simpl. rewrite (proj2 (Nat.leb_le _ _)) by lia. done.
Qed.

(** The loop when every attempt throws a falsy value that the diagnostic
    can read [.message] from (or when no diagnostic is printed, [N = 0]). *)
Lemma retry_loop_falsy N nm (fn : test_body) :
  (0 <= N)%Z ->
  (forall i, exists e, fn i = Abrupt e /\ truthy e = false /\ (nullish e = false \/ N = 0%Z)) ->
  forall fuel a last lg,
  (Z.of_nat a + Z.of_nat fuel = N + 1)%Z -> truthy last = false ->
  outcome (retry_loop fuel nm N fn (Z.of_nat a) a last lg) = Normal
  /\ calls (retry_loop fuel nm N fn (Z.of_nat a) a last lg) = (a + fuel)%nat.
Proof.
  intros HN Hfn fuel.
  induction fuel as [|fuel IH]; intros a last lg Hfuel Hlast; simpl.
  - rewrite Hlast. split; [done | lia].
  - rewrite (proj2 (Z.leb_le _ _)) by lia.
    destruct (Hfn a) as (e & He & Hfalse & Hnn). rewrite He.
    assert (Hs : (Z.of_nat a + 1)%Z = Z.of_nat (S a)) by lia.
    destruct (Z.ltb (Z.of_nat a) N) eqn:Hlt.
    + apply Z.ltb_lt in Hlt.
      destruct Hnn as [Hnn | HN0]; [| lia].
      destruct (get_prop_not_nullish e "message" Hnn) as [m Hm]. rewrite Hm, Hs.
      destruct (IH (S a) e (lg ++ [(nm, Z.of_nat (S a), m)])) as [H1 H2]; [lia | done |].
      split; [done | lia].
    + rewrite Hs. destruct (IH (S a) e lg) as [H1 H2]; [lia | done |].
      split; [done | lia].
Qed.

End RetryLoop.

Section RetryClaims.
Import Retries.

(** With truthy failures the wrapper does what the retry controller is
    documented to do: success after [K + 1] invocations when [K <= N],
    otherwise [N + 1] invocations and the [(N+1)]-th error re-raised. *)
Lemma wrappedFn_fails_first_truthy nm (N : Z) (K : nat) (errs : nat -> jsval) :
  (0 <= N)%Z -> (forall i, truthy (errs i) = true) ->
  ((K <= Z.to_nat N)%nat ->
     outcome (wrappedFn nm N (fails_first K errs)) = Normal
     /\ calls (wrappedFn nm N (fails_first K errs)) = S K)
  /\ ((Z.to_nat N < K)%nat ->
     outcome (wrappedFn nm N (fails_first K errs)) = Abrupt (errs (Z.to_nat N))
     /\ calls (wrappedFn nm N (fails_first K errs)) = S (Z.to_nat N)).
Proof.
  intros HN Herr.
  destruct (retry_loop_truthy N K errs nm HN Herr (Z.to_nat (N + 1)) 0 JUndefined [])
    as [Ho Hc]; [lia | lia | by left |].
  unfold wrappedFn. change (Z.of_nat 0) with 0%Z in Ho, Hc. rewrite Ho, Hc.
  split; intros HK.
  - rewrite (proj2 (Nat.leb_le _ _)) by lia. done.
  - rewrite (proj2 (Nat.leb_gt _ _)) by lia. done.
Qed.

(** C3 (failing input): budget [N = 0], a body that throws [undefined] on
    its first invocation ([K = 1 > N]) and would succeed afterwards.  The
    wrapper invokes it once and then completes normally: [if (lastError)]
    is false for [undefined], so the error captured on attempt [N + 1] is
    not re-raised. *)
Theorem retry_falsy_final_error_not_raised :
  outcome (wrappedFn "t" 0 (fails_first 1 (fun _ => JUndefined))) = Normal
  /\ calls (wrappedFn "t" 0 (fails_first 1 (fun _ => JUndefined))) = 1%nat
  /\ outcome (wrappedFn "t" 0 (fails_first 1 (fun _ => JUndefined))) <> Abrupt JUndefined.
Proof. vm_compute. split; [done | split; [done | discriminate]]. Qed.

(** C10 (counterexample): budget [N = 1] and a body that always throws
    [undefined].  The first failure is not the last attempt, so the
    diagnostic reads [error.message] on [undefined]; that throws a
    TypeError out of the wrapper after one invocation: it does not return
    normally. *)
Lemma retry_nullish_error_raises_typeerror :
  outcome (wrappedFn "t" 1 (fun _ => Abrupt JUndefined)) <> Normal
  /\ outcome (wrappedFn "t" 1 (fun _ => Abrupt JUndefined))
     = Abrupt (JError "TypeError" "Cannot read properties of undefined (reading 'message')")
  /\ calls (wrappedFn "t" 1 (fun _ => Abrupt JUndefined)) = 1%nat.
Proof. vm_compute. split; [discriminate | split; done]. Qed.

(** C10 (amended): for every budget [N >= 0], if every attempt throws a
    falsy value that is not [null]/[undefined] ([false], [0], [""], [NaN]),
    or [N = 0] and the single attempt throws any falsy value, the wrapper
    makes all [N + 1] attempts, its final [if (lastError)] check fails and
    it completes normally. *)
Theorem retry_falsy_errors_swallowed (nm : string) (N : Z) (fn : test_body) :
  (0 <= N)%Z ->
  (forall i, exists e, fn i = Abrupt e /\ truthy e = false /\ (nullish e = false \/ N = 0%Z)) ->
  outcome (wrappedFn nm N fn) = Normal /\ calls (wrappedFn nm N fn) = S (Z.to_nat N).
Proof.
  intros HN Hfn.
  destruct (retry_loop_falsy N nm fn HN Hfn (Z.to_nat (N + 1)) 0 JUndefined []) as [Ho Hc];
    [lia | done |].
  unfold wrappedFn. change (Z.of_nat 0) with 0%Z in Ho, Hc. rewrite Ho, Hc. split; [done | lia].
Qed.

Lemma retry_falsy_errors_swallowed_witness :
  (0 <= 2)%Z
  /\ (forall i, exists e, (fun _ : nat => Abrupt (JNum 0)) i = Abrupt e
        /\ truthy e = false /\ (nullish e = false \/ (2 = 0)%Z))
  /\ outcome (wrappedFn "t" 2 (fun _ => Abrupt (JNum 0))) = Normal
  /\ calls (wrappedFn "t" 2 (fun _ => Abrupt (JNum 0))) = 3%nat.
Proof.
  assert (H1 : (0 <= 2)%Z) by lia.
  assert (H2 : forall i, exists e, (fun _ : nat => Abrupt (JNum 0)) i = Abrupt e
        /\ truthy e = false /\ (nullish e = false \/ (2 = 0)%Z))
    by (intros i; exists (JNum 0); split; [reflexivity | split; [reflexivity | left; reflexivity]]).
  split; [exact H1 |]. split; [exact H2 |].
  exact (retry_falsy_errors_swallowed "t" 2 (fun _ => Abrupt (JNum 0)) H1 H2).
Defined.

(** testRetries' [withRetries] (not the wrapper index.ts installs): a test
    registered through it while the registry is [r]
    hands the host a closure carrying [getCurrentRetryCount r]; whenever
    the host runs it, whatever the registry holds by then, its behaviour
    is the retry loop with that registration-time budget, so it invokes
    the body at most [getCurrentRetryCount r + 1] times. *)
Theorem retry_budget_resolved_at_registration (r : Retry.registry) (nm : string)
    (a : arg2 test_body) (fn : option test_body) (f : test_body) :
  (normalize a fn).2 = Some f ->
  t_fn (retryableTest r nm a fn) = Some (RetryWrapped nm (Retry.getCurrentRetryCount r) f)
  /\ host_run (retryableTest r nm a fn) = wrappedFn nm (Retry.getCurrentRetryCount r) f
  /\ (calls (host_run (retryableTest r nm a fn)) <= Z.to_nat (Retry.getCurrentRetryCount r + 1))%nat.
Proof.
  intros Hf. unfold retryableTest.
  destruct (normalize a fn) as [o fn'] eqn:Hn. simpl in Hf. subst fn'.
  simpl. split; [done | split; [done |]]. apply wrappedFn_calls_bound.
Qed.

Lemma retry_budget_resolved_at_registration_witness :
  (normalize (ArgFun (fails_first 9 (fun _ => JError "Error" "x"))) None).2
    = Some (fails_first 9 (fun _ => JError "Error" "x"))
  /\ host_run (retryableTest Retry.initial "t" (ArgFun (fails_first 9 (fun _ => JError "Error" "x"))) None)
     = wrappedFn "t" 0 (fails_first 9 (fun _ => JError "Error" "x")).
Proof.
  assert (H : (normalize (ArgFun (fails_first 9 (fun _ => JError "Error" "x"))) None).2
    = Some (fails_first 9 (fun _ => JError "Error" "x"))) by reflexivity.
  split; [exact H |].
  exact (proj1 (proj2 (retry_budget_resolved_at_registration Retry.initial "t"
           (ArgFun (fails_first 9 (fun _ => JError "Error" "x"))) None _ H))).
Defined.

(** A test registered before [retryTimes(3)] in the same suite keeps the
    budget it was registered with. *)
Example budget_before_and_after_retryTimes :
  let r1 := Retry.pushDescribeBlock "S" Retry.initial in
  let t1 := retryableTest r1 "t1" (ArgFun (fails_first 9 (fun _ => JError "Error" "x"))) None in
  let r2 := Retry.setGlobalRetryCount 3 r1 in
  let t2 := retryableTest r2 "t2" (ArgFun (fails_first 9 (fun _ => JError "Error" "x"))) None in
  calls (host_run t1) = 1%nat /\ calls (host_run t2) = 4%nat.
Proof. vm_compute. split; reflexivity. Qed.

(** A suite body that completes normally and leaves the stack depth as it
    found it is bracketed by a matching push and pop. *)
Lemma describe_callback_balanced_normal nm (f : suite_body) r :
  (forall r0, let '(r1, c) := f r0 in c = Normal /\ Retry.depth r1 = Retry.depth r0) ->
  Retry.depth (describe_callback nm (Some f) r).1 = Retry.depth r
  /\ (describe_callback nm (Some f) r).2 = Normal.
Proof.
  intros Hf. unfold describe_callback.
  specialize (Hf (Retry.pushDescribeBlock nm r)).
  destruct (f (Retry.pushDescribeBlock nm r)) as [r1 c]. destruct Hf as [-> Hd].
  simpl. rewrite depth_pop, Hd, depth_push. done.
Qed.

(** When the suite body throws, [popDescribeBlock()] is skipped: the block
    stays on the stack. *)
Lemma describe_callback_throw nm (f : suite_body) r r1 e :
  f (Retry.pushDescribeBlock nm r) = (r1, Abrupt e) ->
  describe_callback nm (Some f) r = (r1, Abrupt e).
Proof. intros H. unfold describe_callback. rewrite H. done. Qed.

(** C1 (failing input): [describe('A', () => { throw new Error('boom') })]
    on an empty stack.  The host records the suite's error and returns, and
    the describe stack is left one block deeper than before the call. *)
Theorem describe_throw_leaves_block_on_stack :
  Retry.depth Retry.initial = 0%nat
  /\ Retry.depth (enhancedDescribe Retry.initial "A"
        (ArgFun (throwing_suite (JError "Error" "boom"))) None).1 = 1%nat
  /\ s_error (enhancedDescribe Retry.initial "A"
        (ArgFun (throwing_suite (JError "Error" "boom"))) None).2 = Some (JError "Error" "boom").
Proof. vm_compute. repeat split. Qed.

End RetryClaims.

(** ** JavaScript [Map] *)

Section JSMapFacts.
Context {K V : Type} `{EqDecision K}.

Lemma jsmap_get_set_eq (k : K) (v : V) m : JSMap.get k (JSMap.set k v m) = Some v.
Proof.
  induction m as [|[k' v'] m IH]; simpl; [by rewrite decide_True |].
  destruct (decide (k = k')) as [->|Hne]; simpl; [by rewrite decide_True |].
  rewrite decide_False by done. exact IH.
Qed.

Lemma jsmap_get_none_not_in (k : K) (m : list (K * V)) :
  k ∉ map fst m -> JSMap.get k m = None.
Proof.
  induction m as [|[k' v'] m IH]; simpl; intros Hk; [done |].
  rewrite decide_False by (intros ->; apply Hk; left).
  apply IH. intros Hin. apply Hk. by right.
Qed.

Lemma jsmap_get_delete_eq (k : K) (m : list (K * V)) :
  NoDup (map fst m) -> JSMap.get k (JSMap.delete k m) = None.
Proof.
  induction m as [|[k' v'] m IH]; simpl; intros Hnd; [done |].
  apply NoDup_cons in Hnd as [Hk' Hnd].
  destruct (decide (k = k')) as [->|Hne].
  - by apply jsmap_get_none_not_in.
  - simpl. rewrite decide_False by done. by apply IH.
Qed.

Lemma jsmap_get_delete_ne (k k' : K) (m : list (K * V)) :
  k' <> k -> JSMap.get k' (JSMap.delete k m) = JSMap.get k' m.
Proof.
  intros Hne. induction m as [|[k0 v0] m IH]; simpl; [done |].
  destruct (decide (k = k0)) as [->|Hk].
  - rewrite decide_False by done. done.
  - simpl. destruct (decide (k' = k0)); [done | exact IH].
Qed.

End JSMapFacts.

(** ** Module mocking *)

Section ModuleMockClaims.
Import ModuleMocking.

Definition mm_empty : state :=
  {| mockedModules := []; hostMocked := []; nextCtx := 0; events := [] |}.

(** The spec's scenario: mocking "fs" with a factory returning
    [{ readFileSync: ... }]. *)
Definition fs_exports : jsval := JObj 1 [("readFileSync", JObj 2 [])].

Example mock_fs_first :
  mockModule mm_empty "fs" (Some (Ret fs_exports))
  = ({| mockedModules := [("fs", {| ctx_id := 0; ctx_module := "fs" |})];
        hostMocked := ["fs"]; nextCtx := 1;
        events := [FactoryCalled "fs"; HostMockModule "fs" fs_exports fs_exports] |},
     Ret (Some {| ctx_id := 0; ctx_module := "fs" |})).
Proof. reflexivity. Qed.

(** C5: mocking a module name already in [mockedModules] returns
    [undefined] and leaves the whole state as it was: the factory is not
    called (no event), the host primitive is not called, and the stored
    context is unchanged. *)
Theorem mock_already_mocked_noop (s : state) (nm : string) (factory : option (result jsval)) :
  hasMockedModule s nm = true ->
  mockModule s nm factory = (s, Ret None).
Proof. intros H. unfold mockModule. rewrite H. done. Qed.

Lemma mock_already_mocked_noop_witness :
  hasMockedModule (mockModule mm_empty "fs" (Some (Ret fs_exports))).1 "fs" = true
  /\ mockModule (mockModule mm_empty "fs" (Some (Ret fs_exports))).1 "fs"
       (Some (Ret (JObj 7 [])))
     = ((mockModule mm_empty "fs" (Some (Ret fs_exports))).1, Ret None).
Proof.
  assert (H : hasMockedModule (mockModule mm_empty "fs" (Some (Ret fs_exports))).1 "fs" = true)
    by reflexivity.
  split; [exact H |].
  exact (mock_already_mocked_noop _ "fs" (Some (Ret (JObj 7 []))) H).
Defined.

(** C6: unmocking a mocked name calls the stored context's [restore]
    (host event), then deletes the entry: [hasMockedModule] turns false,
    other entries are kept, the host no longer substitutes the module, and
    a later [mockModule] with no factory or a factory returning an object
    goes through: it creates and registers a fresh context. *)
Theorem unmock_restores_then_forgets (s : state) (nm : string) (c : mock_context) :
  NoDup (map fst (mockedModules s)) ->
  JSMap.get nm (mockedModules s) = Some c ->
  ctx_module c = nm ->
  events (unmockModule s nm) = events s ++ [HostRestore (ctx_id c)]
  /\ hasMockedModule (unmockModule s nm) nm = false
  /\ (forall k, k <> nm -> JSMap.get k (mockedModules (unmockModule s nm)) = JSMap.get k (mockedModules s))
  /\ (nm ∉ hostMocked (unmockModule s nm))
  /\ (forall factory, (factory = None \/ exists oid ps, factory = Some (Ret (JObj oid ps))) ->
        exists s', mockModule (unmockModule s nm) nm factory
                   = (s', Ret (Some {| ctx_id := nextCtx s; ctx_module := nm |}))
                 /\ hasMockedModule s' nm = true).
Proof.
  intros Hnd Hget Hmod.
  assert (Hu : unmockModule s nm = with_modules (host_restore s c) (JSMap.delete nm (mockedModules s))).
  { unfold unmockModule. rewrite Hget. done. }
  assert (Hhas : hasMockedModule (unmockModule s nm) nm = false).
  { unfold hasMockedModule, JSMap.has. rewrite Hu. simpl. by rewrite jsmap_get_delete_eq. }
  assert (Hhost : nm ∉ hostMocked (unmockModule s nm)).
  { rewrite Hu. simpl. rewrite list_elem_of_filter. intros [Hne _]. by apply Hne. }
  split; [rewrite Hu; done |].
  split; [exact Hhas |].
  split; [intros k Hk; rewrite Hu; simpl; by apply jsmap_get_delete_ne |].
  split; [exact Hhost |].
  intros factory Hfac.
  unfold mockModule. rewrite Hhas.
  destruct Hfac as [-> | (oid & ps & ->)].
  - simpl. unfold host_mock_module. rewrite decide_False by exact Hhost.
    eexists. split; [rewrite Hu; reflexivity |].
    unfold hasMockedModule, JSMap.has. simpl. by rewrite jsmap_get_set_eq.
  - simpl. unfold host_mock_module. simpl. rewrite decide_False by exact Hhost.
    eexists. split; [rewrite Hu; reflexivity |].
    unfold hasMockedModule, JSMap.has. simpl. by rewrite jsmap_get_set_eq.
Qed.

Lemma unmock_restores_then_forgets_witness :
  let s1 := (mockModule mm_empty "fs" (Some (Ret fs_exports))).1 in
  NoDup (map fst (mockedModules s1))
  /\ JSMap.get "fs" (mockedModules s1) = Some {| ctx_id := 0; ctx_module := "fs" |}
  /\ hasMockedModule (unmockModule s1 "fs") "fs" = false
  /\ events (unmockModule s1 "fs") = events s1 ++ [HostRestore 0].
Proof.
  intros s1.
  assert (H1 : NoDup (map fst (mockedModules s1))) by (apply NoDup_singleton).
  assert (H2 : JSMap.get "fs" (mockedModules s1) = Some {| ctx_id := 0; ctx_module := "fs" |})
    by reflexivity.
  assert (H3 : ctx_module {| ctx_id := 0; ctx_module := "fs" |} = "fs") by reflexivity.
  pose proof (unmock_restores_then_forgets s1 "fs" _ H1 H2 H3) as (He & Hh & _).
  split; [exact H1 |]. split; [exact H2 |]. split; [exact Hh | exact He].
Defined.

End ModuleMockClaims.

(** ** Mock and spy registry *)

Section MockClaims.
Import Mocks.

Lemma restore_fold (hr : mock -> bool) (l : list (mock * spy_info)) (acc : list mevent) :
  fold_left (fun ev (p : mock * spy_info) => if hr p.1 then ev ++ [MockRestore p.1] else ev) l acc
  = acc ++ map (fun p : mock * spy_info => MockRestore p.1) (filter (fun p : mock * spy_info => hr p.1 = true) l).
Proof.
  revert acc. induction l as [|[m i] l IH]; intros acc; simpl; [by rewrite app_nil_r |].
  rewrite IH. destruct (hr m) eqn:Hm.
  - rewrite filter_cons_True by exact Hm. simpl. by rewrite <- app_assoc.
  - rewrite filter_cons_False by (simpl; rewrite Hm; discriminate). done.
Qed.

(** C7: [restoreAllMocks] calls [mockRestore] on every tracked spy that has
    it (in the map's order), empties the spy map and leaves the set of
    created mocks unchanged; a second call restores nothing and changes
    nothing. *)
Theorem restoreAllMocks_idempotent (has_mockRestore : mock -> bool) (s : state) :
  spiedFunctions (restoreAllMocks has_mockRestore s) = []
  /\ createdMocks (restoreAllMocks has_mockRestore s) = createdMocks s
  /\ mevents (restoreAllMocks has_mockRestore s)
     = mevents s ++ map (fun p : mock * spy_info => MockRestore p.1)
                        (filter (fun p : mock * spy_info => has_mockRestore p.1 = true) (spiedFunctions s))
  /\ restoreAllMocks has_mockRestore (restoreAllMocks has_mockRestore s)
     = restoreAllMocks has_mockRestore s.
Proof.
  split; [done |]. split; [done |]. split.
  - unfold restoreAllMocks. simpl. apply restore_fold.
  - unfold restoreAllMocks at 1. simpl. destruct s as [c sp ev]. done.
Qed.

Example restore_two_spies :
  let info := {| object := JObj 1 []; methodName := "m"; original := JObj 2 []; accessType := None |} in
  let s := registerSpy (registerSpy (registerMock {| createdMocks := []; spiedFunctions := []; mevents := [] |} 5) 7 info) 8 info in
  restoreAllMocks (fun m => negb (Nat.eqb m 8)) s
  = {| createdMocks := [5; 7; 8]; spiedFunctions := []; mevents := [MockRestore 7] |}.
Proof. reflexivity. Qed.

(** For a truthy candidate, [isMockFunction] is the boolean of its
    [_isMockFunction] flag. *)
Lemma isMockFunction_truthy v :
  truthy v = true ->
  exists p, get_prop v "_isMockFunction" = Some p /\ isMockFunction v = Ret (JBool (truthy p)).
Proof.
  intros Ht. destruct (get_prop_not_nullish v "_isMockFunction") as [p Hp];
    [by apply truthy_not_nullish |].
  exists p. unfold isMockFunction. rewrite Ht, Hp. done.
Qed.

(** C8 (failing input): [fn && !!fn._isMockFunction] returns a falsy
    candidate itself: [isMockFunction(null)] is [null], [undefined] gives
    [undefined], [0] gives [0] and [""] gives [""], none of them a boolean. *)
Theorem isMockFunction_falsy_not_boolean :
  isMockFunction JNull = Ret JNull
  /\ isMockFunction JUndefined = Ret JUndefined
  /\ isMockFunction (JNum 0) = Ret (JNum 0)
  /\ isMockFunction (JStr "") = Ret (JStr "")
  /\ isMockFunction (JObj 3 [("_isMockFunction", JBool true)]) = Ret (JBool true).
Proof. repeat split. Qed.

End MockClaims.

(** ** Filtering layer *)

Section FilterClaims.
Import Filtering.

(** No entry point of the filtering layer reads or writes [onlyMode]. *)
Lemma step_onlyMode s c : onlyMode (step s c) = onlyMode s.
Proof.
  destruct c; simpl;
    repeat match goal with |- context [normalize ?a ?f] => destruct (normalize a f) end;
    done.
Qed.

Lemma run_onlyMode s cs : onlyMode (run s cs) = onlyMode s.
Proof.
  revert s. induction cs as [|c cs IH]; intros s; simpl; [done |].
  rewrite IH. apply step_onlyMode.
Qed.


End FilterClaims.

(* ================================================================== *)
(** * Further properties of the registry, the retry controller, module
    mocking, the mock registry and the snapshot set-up *)

Section RetryExtras.
Import Retries.

Lemma getCurrentRetryCount_setGlobal n r :
  Retry.getCurrentRetryCount (Retry.setGlobalRetryCount n r) = n.
Proof.
  destruct (stack_cases (Retry.describeStack r)) as [H | (pre & b & H)].
  - rewrite getCurrentRetryCount_nil; [done |]. by apply setGlobalRetryCount_nil.
  - rewrite (getCurrentRetryCount_snoc _ pre {| Retry.name := Retry.name b; Retry.retryCount := n |});
      [done | by apply setGlobalRetryCount_snoc].
Qed.

Lemma retry_loop_truthy_logs N K errs nm :
  (0 <= N)%Z -> (forall i, truthy (errs i) = true) ->
  forall fuel a last,
  (a <= K)%nat -> (Z.of_nat a + Z.of_nat fuel = N + 1)%Z ->
  logs (retry_loop fuel nm N (fails_first K errs) (Z.of_nat a) a last
          (RetryLogs.log_lines nm errs (Nat.min a (Z.to_nat N))))
  = RetryLogs.log_lines nm errs (Nat.min K (Z.to_nat N)).
Proof.
  intros HN Herr fuel.
  induction fuel as [|fuel IH]; intros a last HaK Hfuel; simpl.
  - f_equal. lia.
  - rewrite (proj2 (Z.leb_le _ _)) by lia.
    destruct (Nat.ltb a K) eqn:HaK'.
    + assert (Hf : fails_first K errs a = Abrupt (errs a))
        by (unfold fails_first; rewrite HaK'; done).
      rewrite Hf. apply Nat.ltb_lt in HaK'.
      assert (Hs : (Z.of_nat a + 1)%Z = Z.of_nat (S a)) by lia.
      destruct (Z.ltb (Z.of_nat a) N) eqn:Hlt.
      * apply Z.ltb_lt in Hlt.
        destruct (get_prop_not_nullish (errs a) "message") as [m Hm];
          [apply truthy_not_nullish, Herr |].
        rewrite Hm, Hs.
        replace (RetryLogs.log_lines nm errs (Nat.min a (Z.to_nat N)) ++ [(nm, Z.of_nat (S a), m)])
          with (RetryLogs.log_lines nm errs (Nat.min (S a) (Z.to_nat N))).
        { apply IH; lia. }
        unfold RetryLogs.log_lines.
        replace (Nat.min (S a) (Z.to_nat N)) with (S a) by lia.
        replace (Nat.min a (Z.to_nat N)) with a by lia.
        rewrite seq_S, map_app. simpl. rewrite Hm. done.
      * apply Z.ltb_ge in Hlt. rewrite Hs.
        replace (Nat.min a (Z.to_nat N)) with (Nat.min (S a) (Z.to_nat N)) by lia.
        apply IH; lia.
    + assert (Hf : fails_first K errs a = Normal)
        by (unfold fails_first; rewrite HaK'; done).
      rewrite Hf. apply Nat.ltb_ge in HaK'. assert (a = K) as -> by lia. done.
Qed.

(** Retry diagnostics: when a body throws truthy errors on its first [K]
    invocations, the wrapper prints one line for each failed attempt that
    is followed by another attempt, i.e. [min K N] lines, numbered
    [1 .. min K N] and carrying each error's message. *)
Theorem wrappedFn_truthy_logs nm (N : Z) (K : nat) (errs : nat -> jsval) :
  (0 <= N)%Z -> (forall i, truthy (errs i) = true) ->
  logs (wrappedFn nm N (fails_first K errs)) = RetryLogs.log_lines nm errs (Nat.min K (Z.to_nat N)).
Proof.
  intros HN Herr. unfold wrappedFn.
  pose proof (retry_loop_truthy_logs N K errs nm HN Herr (Z.to_nat (N + 1)) 0 JUndefined) as H.
  change (Z.of_nat 0) with 0%Z in H. simpl in H. apply H; lia.
Qed.

Lemma wrappedFn_truthy_logs_witness :
  (0 <= 2)%Z /\ (forall i : nat, truthy (JError "Error" "flaky") = true)
  /\ logs (wrappedFn "t" 2 (fails_first 1 (fun _ => JError "Error" "flaky")))
     = [("t", 1%Z, JStr "flaky")].
Proof.
  assert (H1 : (0 <= 2)%Z) by lia.
  assert (H2 : forall i : nat, truthy ((fun _ : nat => JError "Error" "flaky") i) = true)
    by (intros i; reflexivity).
  split; [exact H1 |]. split; [exact H2 |].
  exact (wrappedFn_truthy_logs "t" 2 1 (fun _ => JError "Error" "flaky") H1 H2).
Defined.

(** Whatever the body does, the retry wrapper invokes it at most
    [retryCount + 1] times, and not at all when [retryCount] is negative. *)
Theorem wrappedFn_at_most_budget_calls nm (N : Z) (fn : test_body) :
  (calls (wrappedFn nm N fn) <= Z.to_nat (N + 1))%nat
  /\ ((N < 0)%Z -> calls (wrappedFn nm N fn) = 0%nat).
Proof.
  pose proof (retry_loop_calls_bound (Z.to_nat (N + 1)) nm N fn 0 0 JUndefined []) as H.
  unfold wrappedFn. split; [lia |]. intros HN. lia.
Qed.

(** [retryTimes(n)] inside a suite body also sets the global default, which
    outlives the suite: after [describe(name, () => retryTimes(n))] the
    stack is back to what it was and the global count is [n], so a suite
    or test registered next on an empty stack gets [n]. *)
Theorem describe_retryTimes_sets_global (r : Retry.registry) nm (n : Z) :
  (enhancedDescribe r nm (ArgFun (retryTimes n)) None).1
  = {| Retry.currentRetryCount := n; Retry.describeStack := Retry.describeStack r |}
  /\ (Retry.describeStack r = [] ->
      Retry.getCurrentRetryCount (enhancedDescribe r nm (ArgFun (retryTimes n)) None).1 = n).
Proof.
  assert (Hr : (enhancedDescribe r nm (ArgFun (retryTimes n)) None).1
    = {| Retry.currentRetryCount := n; Retry.describeStack := Retry.describeStack r |}).
  { pose proof (setGlobalRetryCount_snoc n (Retry.pushDescribeBlock nm r) (Retry.describeStack r)
               {| Retry.name := nm; Retry.retryCount := Retry.getCurrentRetryCount r |} eq_refl) as Hs.
    change ((enhancedDescribe r nm (ArgFun (retryTimes n)) None).1)
      with (Retry.popDescribeBlock (Retry.setGlobalRetryCount n (Retry.pushDescribeBlock nm r))).
    unfold Retry.popDescribeBlock. rewrite Hs, removelast_last. done. }
  split; [exact Hr |]. intros H. rewrite Hr. unfold Retry.getCurrentRetryCount. simpl. rewrite H. done.
Qed.

Lemma describe_callback_balanced_normal_witness :
  (forall r0, let '(r1, c) := (fun r : Retry.registry => (r, Normal)) r0 in
              c = Normal /\ Retry.depth r1 = Retry.depth r0)
  /\ Retry.depth (describe_callback "A" (Some (fun r => (r, Normal))) Retry.initial).1
     = Retry.depth Retry.initial.
Proof.
  assert (H : forall r0, let '(r1, c) := (fun r : Retry.registry => (r, Normal)) r0 in
              c = Normal /\ Retry.depth r1 = Retry.depth r0)
    by (intros r0; simpl; split; reflexivity).
  split; [exact H |].
  exact (proj1 (describe_callback_balanced_normal "A" (fun r => (r, Normal)) Retry.initial H)).
Defined.

End RetryExtras.

Section FilterExtras.
Import Filtering.

Lemma jsmap_get_set_ne {K V} `{EqDecision K} (k k' : K) (v : V) m :
  k' <> k -> JSMap.get k' (JSMap.set k v m) = JSMap.get k' m.
Proof.
  intros Hne. induction m as [|[k0 v0] m IH]; simpl.
  - rewrite decide_False by done. done.
  - destruct (decide (k = k0)) as [->|Hk]; simpl.
    + rewrite !decide_False by done. done.
    + destruct (decide (k' = k0)); [done | exact IH].
Qed.

Lemma flag_host_call s flag nm a (fn : option body) :
  let '(o, fn') := normalize a fn in
  registered (host_call "test" nm (JSMap.set flag (JBool true) o) fn' s)
  = registered s ++ [{| r_kind := "test"; r_name := nm;
                        r_options := JSMap.set flag (JBool true) (normalize a fn).1;
                        r_fn := (normalize a fn).2 |}].
Proof. destruct a; done. Qed.

(** [test.only], [test.skip] and [test.todo] register exactly one test with
    the host, with the body the options shift yields, and options that map
    their flag to [true] and agree with the caller's options on every other
    key. *)
Theorem test_flag_variants_keep_options s nm a (fn : option body) :
  forall c flag, (c, flag) ∈ [(TestOnly nm a fn, "only"); (TestSkip nm a fn, "skip");
                             (TestTodo nm a fn, "todo")] ->
  exists o', registered (step s c)
             = registered s ++ [{| r_kind := "test"; r_name := nm; r_options := o';
                                   r_fn := (normalize a fn).2 |}]
          /\ JSMap.get flag o' = Some (JBool true)
          /\ forall k, k <> flag -> JSMap.get k o' = JSMap.get k (normalize a fn).1.
Proof.
  intros c flag Hin.
  exists (JSMap.set flag (JBool true) (normalize a fn).1).
  split; [| split; [apply jsmap_get_set_eq | intros k Hk; by apply jsmap_get_set_ne]].
  pose proof (flag_host_call s flag nm a fn) as H.
  repeat (apply elem_of_cons in Hin as [Hin | Hin]; [injection Hin as -> ->;
    simpl step; destruct (normalize a fn); exact H |]).
  by apply not_elem_of_nil in Hin.
Qed.

Lemma test_flag_variants_keep_options_witness :
  (TestSkip "t" (ArgOpts [("timeout", JNum 5)]) (Some 3), "skip")
    ∈ [(TestOnly "t" (ArgOpts [("timeout", JNum 5)]) (Some 3), "only");
       (TestSkip "t" (ArgOpts [("timeout", JNum 5)]) (Some 3), "skip");
       (TestTodo "t" (ArgOpts [("timeout", JNum 5)]) (Some 3), "todo")]
  /\ exists o', registered (step initial (TestSkip "t" (ArgOpts [("timeout", JNum 5)]) (Some 3)))
             = [{| r_kind := "test"; r_name := "t"; r_options := o'; r_fn := Some 3 |}]
          /\ JSMap.get "skip" o' = Some (JBool true)
          /\ forall k, k <> "skip" -> JSMap.get k o' = JSMap.get k [("timeout", JNum 5)].
Proof.
  assert (Hin : (TestSkip "t" (ArgOpts [("timeout", JNum 5)]) (Some 3), "skip")
    ∈ [(TestOnly "t" (ArgOpts [("timeout", JNum 5)]) (Some 3), "only");
       (TestSkip "t" (ArgOpts [("timeout", JNum 5)]) (Some 3), "skip");
       (TestTodo "t" (ArgOpts [("timeout", JNum 5)]) (Some 3), "todo")])
    by (right; left).
  split; [exact Hin |].
  exact (test_flag_variants_keep_options initial "t" (ArgOpts [("timeout", JNum 5)]) (Some 3) _ _ Hin).
Defined.

End FilterExtras.

Section ModuleMockExtras.
Import ModuleMocking.

Lemma with_events_twice s ev ev' : with_events (with_events s ev) ev' = with_events s ev'.
Proof. destruct s; done. Qed.

(** When the factory throws, [mockModule] rethrows the factory's error
    without reaching the [try] block: nothing is registered, the host is
    not asked to mock anything and nothing is logged. *)
Theorem mockModule_factory_throws s nm e :
  hasMockedModule s nm = false ->
  mockModule s nm (Some (Throw e)) = (with_events s (events s ++ [FactoryCalled nm]), Throw e).
Proof. intros H. unfold mockModule. rewrite H. done. Qed.

Lemma mockModule_factory_throws_witness :
  hasMockedModule mm_empty "fs" = false
  /\ mockModule mm_empty "fs" (Some (Throw (JError "Error" "factory failed")))
     = (with_events mm_empty [FactoryCalled "fs"], Throw (JError "Error" "factory failed")).
Proof.
  assert (H : hasMockedModule mm_empty "fs" = false) by reflexivity.
  split; [exact H |].
  exact (mockModule_factory_throws mm_empty "fs" (JError "Error" "factory failed") H).
Defined.

(** When the factory returns [null] or [undefined], reading
    [moduleExports.__esModule] throws a TypeError inside the [try]: it is
    logged with [console.error] and rethrown, and nothing is registered
    nor mocked on the host. *)
Theorem mockModule_nullish_exports s nm v :
  hasMockedModule s nm = false -> nullish v = true ->
  mockModule s nm (Some (Ret v))
  = (with_events s (events s ++ [FactoryCalled nm; ConsoleError nm (read_error v "__esModule")]),
     Throw (read_error v "__esModule")).
Proof.
  intros H Hv. unfold mockModule. rewrite H.
  destruct v; try discriminate Hv; simpl;
    rewrite with_events_twice, <- app_assoc; done.
Qed.

Lemma mockModule_nullish_exports_witness :
  hasMockedModule mm_empty "fs" = false /\ nullish JNull = true
  /\ mockModule mm_empty "fs" (Some (Ret JNull))
     = (with_events mm_empty [FactoryCalled "fs"; ConsoleError "fs" (read_error JNull "__esModule")],
        Throw (read_error JNull "__esModule")).
Proof.
  assert (H1 : hasMockedModule mm_empty "fs" = false) by reflexivity.
  assert (H2 : nullish JNull = true) by reflexivity.
  split; [exact H1 |]. split; [exact H2 |].
  exact (mockModule_nullish_exports mm_empty "fs" JNull H1 H2).
Defined.

End ModuleMockExtras.

Section ModuleRegistryExtras.
Import ModuleMocking ModuleRegistry.

(** The registry's consistency: names are unique, each context is the one
    the host gave for that name, and the host substitutes exactly the
    registered modules. *)
Definition mm_inv (s : state) : Prop :=
  NoDup (map fst (mockedModules s))
  /\ (forall k c, JSMap.get k (mockedModules s) = Some c -> ctx_module c = k /\ k ∈ hostMocked s)
  /\ (forall m, m ∈ hostMocked s -> exists c, JSMap.get m (mockedModules s) = Some c).

Lemma jsmap_set_keys {K V} `{EqDecision K} (k : K) (v : V) m :
  forall x, x ∈ map fst (JSMap.set k v m) <-> x = k \/ x ∈ map fst m.
Proof.
  induction m as [|[k0 v0] m IH]; intros x; simpl.
  - rewrite elem_of_cons. split; [intros [-> | Hx]; [by left | by apply not_elem_of_nil in Hx] |].
    intros [-> | Hx]; [by left | by apply not_elem_of_nil in Hx].
  - destruct (decide (k = k0)) as [->|Hk]; simpl; rewrite !elem_of_cons; [tauto |].
    rewrite IH. tauto.
Qed.

Lemma jsmap_set_nodup {K V} `{EqDecision K} (k : K) (v : V) m :
  NoDup (map fst m) -> NoDup (map fst (JSMap.set k v m)).
Proof.
  induction m as [|[k0 v0] m IH]; simpl; intros Hnd.
  - apply NoDup_singleton.
  - apply NoDup_cons in Hnd as [Hk0 Hnd].
    destruct (decide (k = k0)) as [->|Hk]; simpl; apply NoDup_cons; split; auto.
    rewrite jsmap_set_keys. intros [-> | H]; auto.
Qed.

Lemma jsmap_delete_keys {V} (k : string) (m : list (string * V)) :
  forall x, x ∈ map fst (JSMap.delete k m) -> x ∈ map fst m.
Proof.
  induction m as [|[k0 v0] m IH]; intros x; simpl; [done |].
  destruct (decide (k = k0)); simpl; rewrite !elem_of_cons; [tauto |].
  intros [-> | H]; [by left | right; by apply IH].
Qed.

Lemma jsmap_delete_nodup {V} (k : string) (m : list (string * V)) :
  NoDup (map fst m) -> NoDup (map fst (JSMap.delete k m)).
Proof.
  induction m as [|[k0 v0] m IH]; simpl; intros Hnd; [done |].
  apply NoDup_cons in Hnd as [Hk0 Hnd].
  destruct (decide (k = k0)); simpl; [done |].
  apply NoDup_cons; split; [| by apply IH].
  intros H. apply Hk0. by eapply jsmap_delete_keys.
Qed.

Lemma jsmap_get_in {V} (k : string) (v : V) m :
  JSMap.get k m = Some v -> (k, v) ∈ m.
Proof.
  induction m as [|[k0 v0] m IH]; simpl; [done |].
  destruct (decide (k = k0)) as [->|]; intros H; rewrite elem_of_cons.
  - injection H as ->. by left.
  - right. by apply IH.
Qed.

(** [mockModule] either leaves the registry and the host as they were, or
    registers a fresh context for a name neither of them knew. *)
Lemma mockModule_cases s nm f :
  let s' := (mockModule s nm f).1 in
  (mockedModules s' = mockedModules s /\ hostMocked s' = hostMocked s)
  \/ (hasMockedModule s nm = false /\ (nm ∉ hostMocked s)
      /\ mockedModules s' = JSMap.set nm {| ctx_id := nextCtx s; ctx_module := nm |} (mockedModules s)
      /\ hostMocked s' = nm :: hostMocked s).
Proof.
  unfold mockModule. destruct (hasMockedModule s nm) eqn:Hh; [by left |].
  unfold host_mock_module, with_events, registerMockedModule, with_modules.
  repeat case_match; simplify_eq/=; first [by left | right; auto].
Qed.

Lemma mm_inv_mockModule s nm f : mm_inv s -> mm_inv (mockModule s nm f).1.
Proof.
  intros (Hnd & Hget & Hhost).
  destruct (mockModule_cases s nm f) as [[Hm Hh] | (Hhas & Hn & Hm & Hh)];
    unfold mm_inv; rewrite Hm, Hh; [done |].
  split; [by apply jsmap_set_nodup |]. split.
  - intros k c. destruct (decide (k = nm)) as [->|Hk].
    + rewrite jsmap_get_set_eq. intros [= <-]. split; [done | by left].
    + rewrite jsmap_get_set_ne by done. intros Hg.
      destruct (Hget k c Hg). split; [done | by right].
  - intros m Hin. apply elem_of_cons in Hin as [-> | Hin].
    + eexists. apply jsmap_get_set_eq.
    + destruct (decide (m = nm)) as [->|Hne]; [eexists; apply jsmap_get_set_eq |].
      rewrite jsmap_get_set_ne by done. by apply Hhost.
Qed.

Lemma mm_inv_unmockModule s nm : mm_inv s -> mm_inv (unmockModule s nm).
Proof.
  intros (Hnd & Hget & Hhost). unfold unmockModule.
  destruct (JSMap.get nm (mockedModules s)) as [c|] eqn:Hc; [| done].
  destruct (Hget nm c Hc) as [Hcm _].
  unfold mm_inv, with_modules, host_restore; simpl. rewrite Hcm.
  split; [by apply jsmap_delete_nodup |]. split.
  - intros k c'. destruct (decide (k = nm)) as [->|Hk].
    + by rewrite jsmap_get_delete_eq.
    + rewrite jsmap_get_delete_ne by done. intros Hg.
      destruct (Hget k c' Hg) as [? Hin]. split; [done |].
      apply list_elem_of_filter. done.
  - intros m Hin. apply list_elem_of_filter in Hin as [Hne Hin].
    rewrite jsmap_get_delete_ne by done. by apply Hhost.
Qed.

Lemma restore_fold_fields (l : list (string * mock_context)) s :
  let s' := fold_left (fun s' (p : string * mock_context) => host_restore s' p.2) l s in
  mockedModules s' = mockedModules s /\ nextCtx s' = nextCtx s
  /\ events s' = events s ++ map (fun p => HostRestore (ctx_id p.2)) l
  /\ (forall m, m ∈ hostMocked s' <-> m ∈ hostMocked s /\ m ∉ map (fun p => ctx_module p.2) l).
Proof.
  revert s. induction l as [|p l IH]; intros s; simpl.
  - rewrite app_nil_r. split; [done |]. split; [done |]. split; [done |].
    intros m. split; [intros Hm; split; [done | apply not_elem_of_nil] | tauto].
  - destruct (IH (host_restore s p.2)) as (H1 & H2 & H3 & H4). unfold host_restore in *; simpl in *.
    split; [done |]. split; [done |]. split; [rewrite H3, <- app_assoc; done |].
    intros m. rewrite H4, list_elem_of_filter, not_elem_of_cons. tauto.
Qed.

Lemma resetAllModules_state g :
  mm_inv (mstate g) ->
  mstate (resetAllModules g)
  = {| mockedModules := []; hostMocked := []; nextCtx := nextCtx (mstate g);
       events := events (mstate g) ++ map (fun p => HostRestore (ctx_id p.2)) (mockedModules (mstate g)) |}.
Proof.
  intros (Hnd & Hget & Hhost).
  destruct (restore_fold_fields (mockedModules (mstate g)) (mstate g)) as (H1 & H2 & H3 & H4).
  assert (Hnil : hostMocked (fold_left (fun s' (p : string * mock_context) => host_restore s' p.2)
                   (mockedModules (mstate g)) (mstate g)) = []).
  { set (s1 := fold_left _ _ _) in *.
    destruct (hostMocked s1) as [|m hm] eqn:Hhm; [done | exfalso].
    assert (Hin : m ∈ m :: hm) by constructor. rewrite H4 in Hin. destruct Hin as [Hin Hnot].
    destruct (Hhost m Hin) as [c Hc]. apply Hnot.
    apply list_elem_of_In, in_map_iff. exists (m, c). split.
    - simpl. by destruct (Hget m c Hc).
    - apply list_elem_of_In. by apply jsmap_get_in. }
  unfold resetAllModules, with_modules. simpl. rewrite H2, H3, Hnil. done.
Qed.

Lemma mm_inv_cleared n ev :
  mm_inv {| mockedModules := []; hostMocked := []; nextCtx := n; events := ev |}.
Proof.
  split; [constructor |]. split; simpl.
  - intros k c Hg. discriminate Hg.
  - intros m Hm. by apply not_elem_of_nil in Hm.
Qed.

Lemma mm_inv_step g o : mm_inv (mstate g) -> mm_inv (mstate (step g o)).
Proof.
  intros Hi. destruct o.
  - by apply mm_inv_mockModule.
  - by apply mm_inv_unmockModule.
  - change (mstate (step g OpReset)) with (mstate (resetAllModules g)).
    rewrite resetAllModules_state by done. apply mm_inv_cleared.
  - done.
Qed.

Lemma mm_inv_run g os : mm_inv (mstate g) -> mm_inv (mstate (run g os)).
Proof.
  revert g. induction os as [|o os IH]; intros g Hi; simpl; [done |].
  apply IH. by apply mm_inv_step.
Qed.

(** Whatever sequence of [jest.mock], [jest.unmock], [jest.resetModules] and
    module caching runs from a fresh process, the registry's module names
    are unique, each recorded context belongs to its module and is active
    on the host, and every module the host substitutes is recorded. *)
Theorem module_registry_consistent rc os :
  let s := mstate (run (empty rc) os) in
  NoDup (map fst (mockedModules s))
  /\ (forall k c, JSMap.get k (mockedModules s) = Some c -> ctx_module c = k /\ k ∈ hostMocked s)
  /\ (forall m, m ∈ hostMocked s -> exists c, JSMap.get m (mockedModules s) = Some c).
Proof.
  apply mm_inv_run, mm_inv_cleared.
Qed.

Lemma requireCache_run g os :
  match requireCache (run g os), requireCache g with
  | Some _, Some _ | None, None => True
  | _, _ => False
  end.
Proof.
  revert g. induction os as [|o os IH]; intros g; simpl; [destruct (requireCache g); done |].
  specialize (IH (step g o)).
  assert (Hs : match requireCache (step g o), requireCache g with
                | Some _, Some _ | None, None => True | _, _ => False end)
    by (destruct o; simpl; destruct (requireCache g); done).
  unfold run in *.
  destruct (requireCache (fold_left step os (step g o))), (requireCache (step g o)),
    (requireCache g); done.
Qed.

(** [jest.resetModules()] on any state reached from a fresh process:
    every recorded mock context is restored once, in the registry's order,
    and afterwards the registry, the host's substitutions and the module
    cache are empty and, under CommonJS, so is [require.cache]. *)
Theorem resetAllModules_clears_everything rc os :
  let g := run (empty rc) os in
  resetAllModules g
  = {| mstate := {| mockedModules := []; hostMocked := []; nextCtx := nextCtx (mstate g);
                    events := events (mstate g)
                              ++ map (fun p => HostRestore (ctx_id p.2)) (mockedModules (mstate g)) |};
       moduleCache := [];
       requireCache := match rc with Some _ => Some [] | None => None end |}.
Proof.
  intros g. pose proof (requireCache_run (empty rc) os) as Hrc. fold g in Hrc.
  rewrite <- (resetAllModules_state g).
  - simpl in Hrc. unfold resetAllModules at 1. simpl.
    destruct (requireCache g), rc; try done.
  - apply mm_inv_run, mm_inv_cleared.
Qed.

End ModuleRegistryExtras.

Section CacheExtras.
Import ModuleMocking ModuleRegistry.

(** Module cache round trip: after [cacheModule(name, m)], [requireMock(name)]
    returns [m] when [m] is truthy and otherwise falls through to
    [requireActual(name)]; caching under one name leaves the others'
    entries alone; after [resetAllModules()] every name falls through to
    [requireActual]. *)
Theorem requireMock_cacheModule host_require g nm nm' v :
  requireMock host_require (cacheModule g nm v) nm
  = (if truthy v then Loaded v else requireActual host_require nm)
  /\ getCachedModule (cacheModule g nm v) nm'
     = (if decide (nm' = nm) then v else getCachedModule g nm')
  /\ requireMock host_require (resetAllModules g) nm' = requireActual host_require nm'.
Proof.
  split; [| split].
  - unfold requireMock, getCachedModule, cacheModule. simpl. rewrite jsmap_get_set_eq. done.
  - unfold getCachedModule, cacheModule. simpl.
    destruct (decide (nm' = nm)) as [->|Hne]; [by rewrite jsmap_get_set_eq |].
    by rewrite jsmap_get_set_ne.
  - done.
Qed.

End CacheExtras.

Section MockOpsExtras.
Import Mocks MockOps.

Lemma set_add_elem m l x : x ∈ set_add m l <-> x = m \/ x ∈ l.
Proof.
  unfold set_add. destruct (decide (m ∈ l)) as [Hin|Hin].
  - split; [tauto |]. intros [-> | H]; done.
  - rewrite elem_of_app, list_elem_of_singleton. tauto.
Qed.

Lemma set_add_nodup m l : NoDup l -> NoDup (set_add m l).
Proof.
  intros Hnd. unfold set_add. destruct (decide (m ∈ l)) as [Hin|Hin]; [done |].
  apply NoDup_app. split; [done |]. split; [| apply NoDup_singleton].
  intros x Hx Hm. apply list_elem_of_singleton in Hm as ->. done.
Qed.

Definition mocks_inv (s : state) : Prop :=
  NoDup (createdMocks s) /\ NoDup (map fst (spiedFunctions s))
  /\ (forall k, k ∈ map fst (spiedFunctions s) -> k ∈ createdMocks s).

Lemma mocks_inv_step hc hr hs s o : mocks_inv s -> mocks_inv (step hc hr hs s o).
Proof.
  intros (H1 & H2 & H3). destruct o; simpl.
  - split; [by apply set_add_nodup |]. split; [done |].
    intros k Hk. apply set_add_elem. right. by apply H3.
  - split; [by apply set_add_nodup |]. split; [by apply jsmap_set_nodup |].
    intros k Hk. apply set_add_elem. apply jsmap_set_keys in Hk as [-> | Hk]; [by left |].
    right. by apply H3.
  - done.
  - done.
  - split; [done |]. split; [constructor |]. intros k Hk. by apply not_elem_of_nil in Hk.
Qed.

(** Whatever sequence of registrations and bulk operations runs from an
    empty registry, every mock is tracked once, every spy once, and every
    tracked spy is also among the tracked mocks (so clearing and resetting
    reach it). *)
Theorem mock_registry_consistent hc hr hs os :
  let s := run hc hr hs empty os in
  NoDup (createdMocks s) /\ NoDup (map fst (spiedFunctions s))
  /\ (forall k, k ∈ map fst (spiedFunctions s) -> k ∈ createdMocks s).
Proof.
  unfold run. change (mocks_inv (fold_left (step hc hr hs) os empty)).
  assert (H0 : mocks_inv empty) by (split; [constructor | split; [constructor | done]]).
  revert H0. generalize empty as s.
  induction os as [|o os IH]; intros s Hs; simpl; [done |].
  apply IH. by apply mocks_inv_step.
Qed.

Lemma bulk_fold {A} (has : mock -> bool) (ev : mock -> A) (l : list mock) (acc : list A) :
  fold_left (fun acc m => if has m then acc ++ [ev m] else acc) l acc
  = acc ++ map ev (filter (fun m => has m = true) l).
Proof.
  revert acc. induction l as [|m l IH]; intros acc; simpl; [by rewrite app_nil_r |].
  rewrite IH. destruct (has m) eqn:Hm.
  - rewrite filter_cons_True by exact Hm. simpl. by rewrite <- app_assoc.
  - rewrite filter_cons_False by (rewrite Hm; discriminate). done.
Qed.

(** [clearAllMocks] and [resetAllMocks] call [mockClear] (resp. [mockReset])
    on every tracked mock that has it, in registration order, and change
    nothing else. Since [restoreAllMocks] empties only the spy map, spies
    already restored are still cleared and reset afterwards. *)
Theorem clear_reset_reach_all_tracked hc hr hs s :
  clearAllMocks hc s
  = {| createdMocks := createdMocks s; spiedFunctions := spiedFunctions s;
       mevents := mevents s ++ map MockClear (filter (fun m => hc m = true) (createdMocks s)) |}
  /\ resetAllMocks hr s
  = {| createdMocks := createdMocks s; spiedFunctions := spiedFunctions s;
       mevents := mevents s ++ map MockReset (filter (fun m => hr m = true) (createdMocks s)) |}
  /\ mevents (clearAllMocks hc (restoreAllMocks hs s))
     = mevents (restoreAllMocks hs s) ++ map MockClear (filter (fun m => hc m = true) (createdMocks s)).
Proof.
  split; [| split].
  - unfold clearAllMocks. by rewrite bulk_fold.
  - unfold resetAllMocks. by rewrite bulk_fold.
  - unfold clearAllMocks. simpl. by rewrite bulk_fold.
Qed.

End MockOpsExtras.

Section SnapshotExtras.
Import Snapshot.

(** The matcher refuses to run without a test context carrying a truthy
    [assert]: a falsy context or a falsy [context.assert] throws the
    "requires a test context" error, and that is the only error it ever
    throws. *)
Theorem toMatchSnapshot_requires_context ctx snap received :
  (forall e, toMatchSnapshot ctx snap received = Throw e -> e = no_context_error)
  /\ ((exists e, toMatchSnapshot ctx snap received = Throw e)
      <-> truthy ctx = false \/ exists a, get_prop ctx "assert" = Some a /\ truthy a = false).
Proof.
  unfold toMatchSnapshot.
  destruct (truthy ctx) eqn:Hc; simpl.
  - destruct (get_prop_not_nullish ctx "assert") as [a Ha]; [by apply truthy_not_nullish |].
    rewrite Ha. destruct (truthy a) eqn:Hta; simpl.
    + assert (Hr : exists r, (match snap received with
                     | Normal => Ret {| pass := true; message := Ret (JStr "Snapshot matches") |}
                     | Abrupt error =>
                         Ret {| pass := false;
                                message :=
                                  match get_prop error "message" with
                                  | None => Throw (read_error error "message")
                                  | Some m => Ret (if truthy m then m else JStr "Snapshot does not match")
                                  end |}
                     end) = Ret r) by (destruct (snap received); eauto).
      destruct Hr as [r ->].
      split; [intros e He; discriminate He |]. split; [intros [e He]; discriminate He |].
      intros [H | (a' & Ha' & Hf)]; [discriminate H |].
      injection Ha' as <-. congruence.
    + split; [intros e He; by injection He as <- |].
      split; [intros _; right; eauto | intros _; eauto].
  - split; [intros e He; by injection He as <- |]. split; [intros _; by left | intros _; eauto].
Qed.

(** With a usable context the matcher never throws; [pass] holds exactly
    when [context.assert.snapshot(received)] completes normally; on a
    failure [message()] yields the thrown error's message, "Snapshot does
    not match" when that message is empty, and itself throws a TypeError
    when the thrown value is null or undefined. *)
Theorem toMatchSnapshot_usable_context ctx snap received a :
  truthy ctx = true -> get_prop ctx "assert" = Some a -> truthy a = true ->
  exists r, toMatchSnapshot ctx snap received = Ret r
  /\ (pass r = true <-> snap received = Normal)
  /\ (forall k msg, snap received = Abrupt (JError k msg) ->
        message r = Ret (JStr (if String.eqb msg "" then "Snapshot does not match" else msg)))
  /\ (forall e, snap received = Abrupt e -> nullish e = true ->
        message r = Throw (read_error e "message")).
Proof.
  intros Hc Ha Hta. unfold toMatchSnapshot. rewrite Hc, Ha, Hta. simpl.
  destruct (snap received) as [|e] eqn:Hs.
  - eexists. split; [done |]. split; [done |]. split; intros; discriminate.
  - eexists. split; [done |]. split; [split; [discriminate | discriminate] |]. split.
    + intros k msg [= ->]. simpl. destruct (String.eqb msg ""); done.
    + intros e' [= <-] Hn. destruct e; try discriminate Hn; done.
Qed.

Lemma toMatchSnapshot_usable_context_witness :
  let ctx := JObj 8 [("assert", JObj 9 [])] in
  truthy ctx = true /\ get_prop ctx "assert" = Some (JObj 9 []) /\ truthy (JObj 9 []) = true
  /\ exists r, toMatchSnapshot ctx (fun _ => Abrupt (JError "Error" "")) (JNum 1) = Ret r
     /\ (pass r = true <-> (fun _ : jsval => Abrupt (JError "Error" "")) (JNum 1) = Normal)
     /\ (forall k msg, (fun _ : jsval => Abrupt (JError "Error" "")) (JNum 1) = Abrupt (JError k msg) ->
           message r = Ret (JStr (if String.eqb msg "" then "Snapshot does not match" else msg)))
     /\ (forall e, (fun _ : jsval => Abrupt (JError "Error" "")) (JNum 1) = Abrupt e -> nullish e = true ->
           message r = Throw (read_error e "message")).
Proof.
  intros ctx.
  assert (H1 : truthy ctx = true) by reflexivity.
  assert (H2 : get_prop ctx "assert" = Some (JObj 9 [])) by reflexivity.
  assert (H3 : truthy (JObj 9 []) = true) by reflexivity.
  split; [exact H1 |]. split; [exact H2 |]. split; [exact H3 |].
  exact (toMatchSnapshot_usable_context ctx (fun _ => Abrupt (JError "Error" "")) (JNum 1) _ H1 H2 H3).
Defined.

Lemma initialize_times_events n he s :
  resolverSet s = true ->
  initialize_times n he s
  = {| resolverSet := true;
       sevents := sevents s ++ repeat (if he then ExpectExtend else WarnNoExtend) n |}.
Proof.
  revert s. induction n as [|n IH]; intros s Hs; simpl.
  - destruct s; simpl in *; subst. by rewrite app_nil_r.
  - unfold initializeSnapshot, setupSnapshotPathResolver. rewrite Hs.
    rewrite IH by done. simpl. rewrite <- app_assoc. done.
Qed.

(** Initializing snapshot support [n + 1] times from a fresh process
    configures the host's snapshot path resolver and serializers once, but
    calls [expect.extend] (or warns that it is missing) on every call. *)
Theorem initializeSnapshot_repeated n he :
  initialize_times (S n) he initial
  = {| resolverSet := true;
       sevents := [SetResolveSnapshotPath; SetDefaultSnapshotSerializers]
                  ++ repeat (if he then ExpectExtend else WarnNoExtend) (S n) |}.
Proof.
  simpl. rewrite initialize_times_events by done. simpl. done.
Qed.

End SnapshotExtras.

Section FacadeClaims.
Import Retries Facade.

(** A body that throws on its first invocation and passes afterwards. *)
Definition flaky_once : test_body := fails_first 1 (fun _ => JError "Error" "flaky").

(** [describe('S', () => { test.retryTimes(3); test('t', flaky); }); test.retryTimes(0);] *)
Definition budget_file : prog :=
  Seq (Describe "S" (DFun (Seq (RetryTimes 3) (Seq (Test "t" (VFun flaky_once) VOther) Done))) None)
      (Seq (RetryTimes 0) Done).

(** C2 (failing input): with the installed façade the budget is read when
    the host runs the test, not when it is registered.  In [budget_file]
    the count is 3 when [test('t', ...)] registers its wrapper, but the
    top-level [test.retryTimes(0)] that follows sets it to 0 before any
    test runs: the host's run of [t] invokes the body once and fails,
    where the registration-time budget 3 would have passed on the second
    attempt. *)
Theorem facade_budget_read_at_run_time :
  let s_reg := (exec_prog (with_reg initial (Retry.pushDescribeBlock "S" (freg initial)))
                  (Seq (RetryTimes 3) Done)).1 in
  let s_end := (exec_prog initial budget_file).1 in
  Retry.getCurrentRetryCount (freg s_reg) = 3%Z
  /\ ftests s_end = [{| ft_name := "t"; ft_options := []; ft_fn := Some (Wrapped "t" flaky_once) |}]
  /\ Retry.getCurrentRetryCount (freg s_end) = 0%Z
  /\ run_wrapper (Wrapped "t" flaky_once) (freg s_end)
     = {| outcome := Abrupt (JError "Error" "flaky"); calls := 1; logs := [] |}
  /\ outcome (wrappedFn "t" 3 flaky_once) = Normal
  /\ calls (wrappedFn "t" 3 flaky_once) = 2%nat.
Proof. vm_compute. repeat split. Qed.

Lemma set_only_keeps s : fonly s = true -> forall r, fonly (with_reg s r) = true.
Proof. done. Qed.

Lemma describe_with_only s nm o body :
  (forall s', fonly s' = true -> match body with Some f => fonly (f s').1 = true | None => True end) ->
  fonly s = true -> fonly (describe_with s nm o body).1 = true.
Proof.
  intros Hb Hs. destruct body as [f|]; simpl; [| done].
  specialize (Hb (with_reg s (Retry.pushDescribeBlock nm (freg s))) Hs). simpl in Hb.
  destruct (f _) as [s2 [|e]]; simpl in *; done.
Qed.

Lemma exec_op_only (o : op) : forall s, fonly s = true -> fonly (exec_op s o).1 = true
with exec_prog_only (p : prog) : forall s, fonly s = true -> fonly (exec_prog s p).1 = true.
Proof.
  - destruct o as [nm a2 a3 | nm fn t | nm fn | nm | c | nm a2 fn | nm fn | nm fn | nm fn | e];
      intros s Hs; cbn [exec_op].
    + unfold testFunction. destruct (test_args _ _). done.
    + unfold testFunction. destruct (test_args _ _). done.
    + unfold testFunction. destruct (test_args _ _). done.
    + unfold testFunction. destruct (test_args _ _). done.
    + done.
    + destruct a2 as [p | o |]; apply describe_with_only; try done.
      * intros s' Hs'. by apply exec_prog_only.
      * destruct fn as [p|]; [intros s' Hs'; by apply exec_prog_only | done].
      * destruct fn as [p|]; [intros s' Hs'; by apply exec_prog_only | done].
    + apply describe_with_only; [| done].
      destruct fn as [p|]; [intros s' Hs'; by apply exec_prog_only | done].
    + apply describe_with_only; [| done].
      destruct fn as [p|]; [intros s' Hs'; by apply exec_prog_only | done].
    + apply describe_with_only; [| done].
      destruct fn as [p|]; [intros s' Hs'; by apply exec_prog_only | done].
    + done.
  - destruct p as [| o p']; intros s Hs; cbn [exec_prog]; [done |].
    pose proof (exec_op_only o s Hs) as Ho.
    destruct (exec_op s o) as [s1 [|e]]; simpl in *; [by apply exec_prog_only | done].
Qed.

(** C9: the only-mode flag of the installed facade is one boolean, false at
    start; [test.only] and [describe.only] set it to true (also when the
    describe.only body throws), and no facade operation (test, describe and
    their variants, retryTimes, a throwing body) sets it back to false. The
    public API of index.ts exports no setter of the flag. *)
Theorem facade_only_flag_set_never_cleared :
  fonly initial = false
  /\ (forall s nm fn timeout, fonly (exec_op s (TestOnly nm fn timeout)).1 = true)
  /\ (forall s nm fn, fonly (exec_op s (DescribeOnly nm fn)).1 = true)
  /\ (forall s o, fonly s = true -> fonly (exec_op s o).1 = true)
  /\ (forall s p, fonly s = true -> fonly (exec_prog s p).1 = true).
Proof.
  split; [done |]. split; [| split; [| split]].
  - intros s nm fn timeout. cbn [exec_op]. unfold testFunction.
    destruct (test_args _ _). done.
  - intros s nm fn. cbn [exec_op]. apply describe_with_only; [| done].
    destruct fn as [p|]; [intros s' Hs'; by apply exec_prog_only | done].
  - intros s o. exact (exec_op_only o s).
  - intros s p. exact (exec_prog_only p s).
Qed.

Definition after_only_file : prog :=
  Seq (Describe "S" (DFun (Seq (RetryTimes 2) (Seq (ThrowOp (JError "Error" "boom")) Done))) None)
    (Seq (RetryTimes 0) (Seq (Test "t" (VFun flaky_once) VOther) Done)).

Lemma facade_only_flag_set_never_cleared_witness :
  fonly (exec_prog (exec_op initial (TestOnly "a" (VFun flaky_once) VOther)).1 after_only_file).1 = true.
Proof.
  destruct facade_only_flag_set_never_cleared as (_ & _ & _ & _ & H).
  apply H. vm_compute. reflexivity.
Defined.

(** The installed describe facade runs [pushDescribeBlock(name); fn!();
    popDescribeBlock()] with no try/finally: a body that throws leaves its
    block on the stack (one deeper than before), while the host records the
    suite with the error. *)
Theorem facade_describe_throw_leaves_block (s : fstate) (nm : string) (e : jsval) :
  let s' := (exec_op s (Describe nm (DFun (Seq (ThrowOp e) Done)) None)).1 in
  Retry.depth (freg s') = S (Retry.depth (freg s))
  /\ Retry.describeStack (freg s') =
       Retry.describeStack (freg s)
       ++ [{| Retry.name := nm; Retry.retryCount := Retry.getCurrentRetryCount (freg s) |}]
  /\ fsuites s' = fsuites s ++ [{| fs_name := nm; fs_options := []; fs_error := Some e |}].
Proof.
  destruct s as [r o ts ss]. cbn.
  unfold Retry.depth, Retry.pushDescribeBlock. cbn.
  rewrite length_app. simpl. split; [lia | done].
Qed.



End FacadeClaims.
